(** * Molecular property evaluation and multi-objective reward

    A shallow embedding of [src/property_calculator.py] and the proofs of
    its specified properties.

    Conventions of the embedding.

    - Python floats (and the ints mixed with them) are real numbers [R];
      [np.exp] is the real exponential.  The weight table, the only place
      where a claim speaks of an exact float equality, is evaluated a second
      time in IEEE-754 binary64 ([Module Binary64], on [SpecFloat]).
    - A property record is a Python dict with string keys: a
      [gmap string pyval].
    - A call that the source wraps in [try]/[except] may raise: it returns
      an [outcome].  The descriptor functions of the toolkit are pure, as the
      collaborator interface of the specification has them.
    - The toolkit (RDKit, the optional [sascorer] module, the fingerprint
      generator imported from [.config]) is a record of functions over an
      abstract molecule type. *)

From Stdlib Require Import Reals Lra ZArith List.
From Stdlib Require Import Floats.SpecFloat.
From stdpp Require Import base option gmap strings.

Local Open Scope R_scope.

(** ** Exceptions and fallible computations *)

(** The exception classes the source distinguishes.  [ModuleNotFoundError]
    is a subclass of [ImportError]; [KeyboardInterrupt] derives from
    [BaseException] only, so [except Exception] lets it through while a
    bare [except:] catches it. *)
Inductive exn : Set :=
  | ImportError
  | ModuleNotFoundError
  | IndexError
  | TypeError
  | ValueError
  | RuntimeError
  | KeyboardInterrupt.

(** [isinstance(e, ImportError)] *)
Definition is_ImportError (e : exn) : bool :=
  match e with
  | ImportError | ModuleNotFoundError => true
  | _ => false
  end.

(** [isinstance(e, Exception)] *)
Definition is_Exception (e : exn) : bool :=
  match e with
  | KeyboardInterrupt => false
  | _ => true
  end.

(** The handler of a bare [except:]. *)
Definition any_exception (e : exn) : bool := true.

Inductive outcome (A : Type) : Type :=
  | Ok (a : A)
  | Raise (e : exn).
Arguments Ok {A} a.
Arguments Raise {A} e.

#[global] Instance outcome_ret : MRet outcome := fun A a => Ok a.
#[global] Instance outcome_bind : MBind outcome := fun A B f c =>
  match c with
  | Ok a => f a
  | Raise e => Raise e
  end.
#[global] Instance outcome_fmap : FMap outcome := fun A B f c =>
  match c with
  | Ok a => Ok (f a)
  | Raise e => Raise e
  end.

(** [try: body  except <class>: handler] *)
Definition try_except {A : Type} (body : outcome A) (catches : exn -> bool)
    (handler : exn -> outcome A) : outcome A :=
  match body with
  | Ok a => Ok a
  | Raise e => if catches e then handler e else Raise e
  end.

(** ** Python values held by a property record *)

Inductive pyval : Type :=
  | PyNone
  | PyStr (s : string)
  | PyNum (x : R).

(** [d.get(key, dflt)] *)
Definition get (d : gmap string pyval) (key : string) (dflt : pyval) : pyval :=
  default dflt (d !! key).

(** [not props], for [props] a dict or [None] *)
Definition py_not (props : option (gmap string pyval)) : bool :=
  match props with
  | None => true
  | Some d => Nat.eqb (size d) 0
  end.

(** Unary minus: a [TypeError] on [None] and on strings. *)
Definition py_neg (v : pyval) : outcome pyval :=
  match v with
  | PyNum x => Ok (PyNum (- x))
  | _ => Raise TypeError
  end.

(** [np.clip(x, lo, hi)], that is [minimum(maximum(x, lo), hi)] *)
Definition clip (x lo hi : R) : R := Rmin (Rmax x lo) hi.

(** ** The reward aggregator (lines 151-185) *)

Definition _sigmoid (x : pyval) (k x0 : R) : outcome R :=
  match x with
  | PyNone => Ok 0.0
  | PyNum x => Ok (1 / (1 + exp (- k * (x - x0))))
  | PyStr _ => Raise TypeError
  end.

(** The dict [weights], whose six keys are fixed: one field per key, in
    insertion order. *)
Module weights.
Record t : Type := mk {
  r_pic50 : R;
  r_sel : R;
  r_qed : R;
  r_cns : R;
  r_bbb : R;
  r_sa : R
}.
End weights.

(** The six squashed objectives, the local variables of lines 161-166. *)
Module scores.
Record t : Type := mk {
  r_pic50 : R;
  r_sel : R;
  r_qed : R;
  r_cns : R;
  r_bbb : R;
  r_sa : R
}.
End scores.

(** Line 159. *)
Definition initial_weights : weights.t :=
  weights.mk 0.35 0.20 0.15 0.10 0.10 0.10.

(** Lines 170-174, the body of the redistribution branch. *)
Definition redistribute (w : weights.t) : weights.t :=
  let redist_weight := weights.r_pic50 w + weights.r_sel w in
  weights.mk 0 0
    (weights.r_qed w + redist_weight * 0.5)
    (weights.r_cns w)
    (weights.r_bbb w)
    (weights.r_sa w + redist_weight * 0.5).

(** The dict [weights] as it stands after line 174: the weights the score
    is computed with. *)
Definition effective_weights (props : gmap string pyval) : weights.t :=
  match props !! "pIC50_KEAP1" with
  | None => redistribute initial_weights
  | Some _ => initial_weights
  end.

(** [sum(weights.values())]: from the int 0, left to right. *)
Definition total_weight (w : weights.t) : R :=
  0 + weights.r_pic50 w + weights.r_sel w + weights.r_qed w
    + weights.r_cns w + weights.r_bbb w + weights.r_sa w.

(** Lines 161-166. *)
Definition objective_scores (props : gmap string pyval) : outcome scores.t :=
  r_pic50 ← _sigmoid (get props "pIC50_KEAP1" (PyNum 0.0)) 2.0 7.5;
  r_sel ← _sigmoid (get props "Selectivity_Score" (PyNum 0.0)) 1.5 2.5;
  r_qed ← _sigmoid (get props "QED" (PyNum 0.0)) 10 0.6;
  r_cns ← _sigmoid (get props "CNS_MPO" (PyNum 0.0)) 15 0.5;
  r_bbb ← _sigmoid (get props "BBB_Score" (PyNum 0.0)) 10 0.7;
  sa ← py_neg (get props "SA_Score" (PyNum 10.0));
  r_sa ← _sigmoid sa 1.0 (-3.5);
  mret (scores.mk r_pic50 r_sel r_qed r_cns r_bbb r_sa).

(** The numerator of lines 179-183. *)
Definition weighted_sum (w : weights.t) (s : scores.t) : R :=
  weights.r_pic50 w * scores.r_pic50 s + weights.r_sel w * scores.r_sel s
  + weights.r_qed w * scores.r_qed s + weights.r_cns w * scores.r_cns s
  + weights.r_bbb w * scores.r_bbb s + weights.r_sa w * scores.r_sa s.

Definition calculate_multi_objective_reward
    (props : option (gmap string pyval)) : outcome R :=
  if py_not props then Ok 0.01 else
  let props := default ∅ props in
  s ← objective_scores props;
  let weights := effective_weights props in
  let total_weight := total_weight weights in
  if Req_dec_T total_weight 0 then Ok 0.01 else
  let score := weighted_sum weights s / total_weight in
  Ok (clip score 0 1).

(** ** The toolkit the evaluator calls *)

(** A predictor: [m.predict(features)] returns an array, or raises. *)
Definition Predictor : Type := list R -> outcome (list R).

(** What the module imports.  [MolFromSmiles] returns [None] on a string it
    cannot parse; [SanitizeMol] works in place and its result here is the
    molecule as the call leaves it; [HasMatch] is the PAINS catalog's;
    [import_sascorer] is the statement [import sascorer], which yields the
    module's [calculateScore] or raises; [GetFingerprint] is that of
    [MORGAN_GENERATOR], a constant of [.config]. *)
Record Toolkit (Mol : Type) : Type := {
  MolFromSmiles : string -> outcome (option Mol);
  SanitizeMol : Mol -> outcome Mol;
  HasMatch : Mol -> outcome bool;
  import_sascorer : outcome (Mol -> outcome R);
  GetFingerprint : Mol -> outcome (list R);
  Descriptors_MolLogP : Mol -> R;
  Crippen_MolLogP : Mol -> R;
  MolWt : Mol -> R;
  TPSA : Mol -> R;
  NumHDonors : Mol -> Z;
  NumHAcceptors : Mol -> Z;
  NumRotatableBonds : Mol -> Z;
  FractionCSP3 : Mol -> R;
  RingCount : Mol -> Z;
  NumAromaticRings : Mol -> Z;
  HeavyAtomCount : Mol -> Z;
  qed : Mol -> R
}.
Arguments MolFromSmiles {Mol} _ _.
Arguments SanitizeMol {Mol} _ _.
Arguments HasMatch {Mol} _ _.
Arguments import_sascorer {Mol} _.
Arguments GetFingerprint {Mol} _ _.
Arguments Descriptors_MolLogP {Mol} _ _.
Arguments Crippen_MolLogP {Mol} _ _.
Arguments MolWt {Mol} _ _.
Arguments TPSA {Mol} _ _.
Arguments NumHDonors {Mol} _ _.
Arguments NumHAcceptors {Mol} _ _.
Arguments NumRotatableBonds {Mol} _ _.
Arguments FractionCSP3 {Mol} _ _.
Arguments RingCount {Mol} _ _.
Arguments NumAromaticRings {Mol} _ _.
Arguments HeavyAtomCount {Mol} _ _.
Arguments qed {Mol} _ _.

(** [a[0]] *)
Definition index0 (a : list R) : outcome R :=
  match a with
  | x :: _ => Ok x
  | [] => Raise IndexError
  end.

(** The BBB heuristic, the expression of line 119. *)
Definition bbb_score (tpsa : R) (hbd : Z) (logp : R) : R :=
  1.0 - (if Rgt_dec tpsa 90 then 0.1 else 0)
      - (if Z.ltb 5 hbd then 0.1 else 0)
      - (if Rgt_dec logp 5 then 0.1 else 0).

(** The fallback approximation of lines 29-33. *)
Definition sa_approximation (logp mw : R) (rot_bonds : Z) : R :=
  let score :=
    2.5 + 0.1 * (mw / 100) + 0.2 * IZR rot_bonds + 0.3 * Rabs (logp - 2.5) in
  Rmin score 10.0.

Section Evaluator.
Context {Mol : Type} (tk : Toolkit Mol).

(** Lines 20-33. *)
Definition calculate_sa_score (mol : Mol) : outcome R :=
  try_except
    (sascorer ← import_sascorer tk; sascorer mol)
    is_ImportError
    (fun _ =>
       let logp := Descriptors_MolLogP tk mol in
       let mw := MolWt tk mol in
       let rot_bonds := NumRotatableBonds tk mol in
       Ok (sa_approximation logp mw rot_bonds)).

Definition has_pains (mol : Mol) : outcome bool := HasMatch tk mol.

(** Lines 38-43; the second component is the molecule after the call. *)
Definition check_valency (mol : Mol) : bool * Mol :=
  match SanitizeMol tk mol with
  | Ok mol' => (true, mol')
  | Raise _ => (false, mol)
  end.

(** Lines 57-67.  The descriptors are numbers by their type, so the
    [None] test of line 59 never fires. *)
Definition calculate_cns_mpo (mol : Mol) : R :=
  let logp := Descriptors_MolLogP tk mol in
  let tpsa := TPSA tk mol in
  let mw := MolWt tk mol in
  let hbd := IZR (NumHDonors tk mol) in
  (exp (- ((logp - 2.5) ^ 2) / 2)
   + exp (- ((tpsa - 75) ^ 2) / (2 * 30 ^ 2))
   + exp (- ((mw - 400) ^ 2) / (2 * 100 ^ 2))
   + (if Rgt_dec hbd 2.5 then exp (- (hbd - 2.5)) else 1.0)) / 4.

(** Lines 86-96: the fingerprint followed by the ten descriptors. *)
Definition get_features (mol : Mol) : outcome (list R) :=
  fp ← GetFingerprint tk mol;
  let desc :=
    [ Descriptors_MolLogP tk mol; MolWt tk mol; TPSA tk mol;
      IZR (NumHAcceptors tk mol); IZR (NumHDonors tk mol);
      IZR (NumRotatableBonds tk mol); FractionCSP3 tk mol;
      IZR (RingCount tk mol); IZR (NumAromaticRings tk mol);
      IZR (HeavyAtomCount tk mol) ] in
  mret (fp ++ desc).

(** Lines 100-105: the molecule the evaluator goes on with, or [None]
    where the source returns [None]. *)
Definition accepted_molecule (smiles : string) : outcome (option Mol) :=
  try_except
    (mol ← MolFromSmiles tk smiles;
     match mol with
     | None => Ok None
     | Some mol =>
         let '(valid, mol) := check_valency mol in
         if negb valid then Ok None else
         pains ← has_pains mol;
         if (pains : bool) then Ok None else Ok (Some mol)
     end)
    any_exception
    (fun _ => Ok None).

(** Lines 107-120: the record before the predictor block. *)
Definition descriptor_record (smiles : string) (mol : Mol) (sa : R)
    : gmap string pyval :=
  let result : gmap string pyval :=
    <[ "MolWt" := PyNum (MolWt tk mol) ]>
    (<[ "RingCount" := PyNum (IZR (RingCount tk mol)) ]>
    (<[ "SA_Score" := PyNum sa ]>
    (<[ "CNS_MPO" := PyNum (calculate_cns_mpo mol) ]>
    (<[ "QED" := PyNum (qed tk mol) ]>
    (<[ "SMILES" := PyStr smiles ]> ∅))))) in
  let logp := Crippen_MolLogP tk mol in
  let tpsa := TPSA tk mol in
  let bbb_score := bbb_score tpsa (NumHDonors tk mol) logp in
  <[ "BBB_Score" := PyNum bbb_score ]> result.

(** Lines 125-135, the body of the inner [try]. *)
Definition predictor_block (mol : Mol) (result : gmap string pyval)
    (keap1_m egfr_m ikkb_m : Predictor) : outcome (gmap string pyval) :=
  features ← get_features mol;
  pic50_keap1 ← keap1_m features ≫= index0;
  pic50_egfr ← egfr_m features ≫= index0;
  pic50_ikkb ← ikkb_m features ≫= index0;
  mret
    (<[ "Selectivity_Score" :=
          PyNum (pic50_keap1 - Rmax pic50_egfr pic50_ikkb) ]>
    (<[ "pIC50_IKKb" := PyNum pic50_ikkb ]>
    (<[ "pIC50_EGFR" := PyNum pic50_egfr ]>
    (<[ "pIC50_KEAP1" := PyNum pic50_keap1 ]> result)))).

(** Lines 98-140.  The warning logged at line 137 is not modelled. *)
Definition calculate_advanced_properties (smiles : string)
    (keap1_m egfr_m ikkb_m : option Predictor)
    : outcome (option (gmap string pyval)) :=
  mol ← accepted_molecule smiles;
  match mol with
  | None => Ok None
  | Some mol =>
      sa ← calculate_sa_score mol;
      let result := descriptor_record smiles mol sa in
      match keap1_m, egfr_m, ikkb_m with
      | Some keap1_m, Some egfr_m, Some ikkb_m =>
          try_except
            (Some <$> predictor_block mol result keap1_m egfr_m ikkb_m)
            is_Exception
            (fun _ => Ok None)
      | _, _, _ => Ok (Some result)
      end
  end.

End Evaluator.

(** ** The weight table in IEEE-754 binary64

    Lines 159 and 169-176 once more, on doubles: the literals rounded to
    the nearest double, every [+] and [*] rounded to nearest-even.
    [sum] adds from the int 0, left to right. *)
Module Binary64.

Definition prec : Z := 53.
Definition emax : Z := 1024.

Definition add : spec_float -> spec_float -> spec_float := SFadd prec emax.
Definition mul : spec_float -> spec_float -> spec_float := SFmul prec emax.

(** The double of the decimal literal [n / d], for integers [n] and [d]
    that a double holds exactly: their quotient is rounded once, as the
    literal is. *)
Definition literal (n d : positive) : spec_float :=
  SFdiv prec emax (S754_finite false n 0) (S754_finite false d 0).

(** The int 0, and [1.0]. *)
Definition zero : spec_float := S754_zero false.
Definition one : spec_float := S754_finite false 4503599627370496 (-52).

Record weights : Type := mk {
  r_pic50 : spec_float;
  r_sel : spec_float;
  r_qed : spec_float;
  r_cns : spec_float;
  r_bbb : spec_float;
  r_sa : spec_float
}.

Definition initial_weights : weights :=
  mk (literal 35 100) (literal 20 100) (literal 15 100)
     (literal 10 100) (literal 10 100) (literal 10 100).

Definition redistribute (w : weights) : weights :=
  let redist_weight := add (r_pic50 w) (r_sel w) in
  mk zero zero
     (add (r_qed w) (mul redist_weight (literal 5 10)))
     (r_cns w)
     (r_bbb w)
     (add (r_sa w) (mul redist_weight (literal 5 10))).

(** [has_potency] is the outcome of ['pIC50_KEAP1' in props]. *)
Definition effective_weights (has_potency : bool) : weights :=
  if has_potency then initial_weights else redistribute initial_weights.

Definition total_weight (w : weights) : spec_float :=
  add (add (add (add (add (add zero (r_pic50 w)) (r_sel w)) (r_qed w))
    (r_cns w)) (r_bbb w)) (r_sa w).

End Binary64.

(** ** The specification's wording, for comparison *)

(** The BBB heuristic as the specification tells it: start at 1.0, then
    take 0.1 off for each of the three conditions that holds, in turn. *)
Definition exceeds (x bound : R) : bool :=
  if Rgt_dec x bound then true else false.

Definition bbb_spec (tpsa : R) (hbd : Z) (logp : R) : R :=
  fold_left (fun acc (penalised : bool) => if penalised then acc - 0.1 else acc)
    [ exceeds tpsa 90; bool_decide (hbd > 5)%Z; exceeds logp 5 ]
    1.0.

(** The effective weights the specification lists for a record without
    potency and selectivity. *)
Definition listed_weights : weights.t :=
  weights.mk 0 0 (0.15 + 0.125) 0.10 0.10 (0.10 + 0.125).

(** The same table with the half of the moved mass, (0.35 + 0.20) / 2, in
    its place. *)
Definition redistributed_weights : weights.t :=
  weights.mk 0 0 (0.15 + 0.275) 0.10 0.10 (0.10 + 0.275).

(** The four keys the predictor block adds. *)
Definition predictor_keys : list string :=
  [ "pIC50_KEAP1"; "pIC50_EGFR"; "pIC50_IKKb"; "Selectivity_Score" ].

(** The six keys the reward reads. *)
Definition reward_keys : list string :=
  [ "pIC50_KEAP1"; "Selectivity_Score"; "QED"; "CNS_MPO"; "BBB_Score";
    "SA_Score" ].

Definition is_number (v : option pyval) : bool :=
  match v with
  | None | Some (PyNum _) => true
  | Some _ => false
  end.

(** Every value the reward reads from the record is a number. *)
Definition numeric_record (props : gmap string pyval) : bool :=
  forallb (fun key => is_number (props !! key)) reward_keys.

(** The value of one predictor for the record: [m.predict(features)[0]]. *)
Definition invoke (m : Predictor) (features : list R) : outcome R :=
  m features ≫= index0.

(** A call that raises an exception of class [Exception]. *)
Definition raises {A : Type} (c : outcome A) : Prop :=
  exists e, c = Raise e /\ is_Exception e = true.

(** The logistic function [sigmoid(x; k, x0)] of the specification. *)
Definition logistic (x k x0 : R) : R := 1 / (1 + exp (- k * (x - x0))).

(** An encoding the evaluator turns down: the parser raises or returns
    [None], sanitization raises, or the alert catalog matches (or raises). *)
Definition rejected {Mol : Type} (tk : Toolkit Mol) (smiles : string) : Prop :=
  (exists e, MolFromSmiles tk smiles = Raise e)
  \/ MolFromSmiles tk smiles = Ok None
  \/ exists mol, MolFromSmiles tk smiles = Ok (Some mol)
       /\ ((exists e, SanitizeMol tk mol = Raise e)
           \/ exists mol', SanitizeMol tk mol = Ok mol'
                /\ (HasMatch tk mol' = Ok true
                    \/ exists e, HasMatch tk mol' = Raise e)).

(** The predictors are invoked in turn on the feature vector; the first
    invocation that fails raises an exception of class [Exception]. *)
Definition some_invocation_raises (keap1_m egfr_m ikkb_m : Predictor)
    (features : list R) : Prop :=
  raises (invoke keap1_m features)
  \/ (exists pk, invoke keap1_m features = Ok pk
        /\ raises (invoke egfr_m features))
  \/ (exists pk pe, invoke keap1_m features = Ok pk
        /\ invoke egfr_m features = Ok pe
        /\ raises (invoke ikkb_m features)).

(** All four predictor keys, or none of them. *)
Definition predictor_keys_atomic (record : gmap string pyval) : Prop :=
  Forall (fun key => is_Some (record !! key)) predictor_keys
  \/ Forall (fun key => record !! key = None) predictor_keys.

(** ** Sample inputs *)
Module Sample.

(** Molecules given by the values the toolkit reads off them. *)
Record molecule : Type := {
  logp : R;
  mol_wt : R;
  tpsa : R;
  h_donors : Z;
  h_acceptors : Z;
  rot_bonds : Z;
  rings : Z;
  heavy_atoms : Z;
  drug_likeness : R;
  sanitizes : bool;
  alert : bool
}.

Definition ethanol : molecule :=
  {| logp := -0.0014; mol_wt := 46.069; tpsa := 20.23; h_donors := 1;
     h_acceptors := 1; rot_bonds := 0; rings := 0; heavy_atoms := 3;
     drug_likeness := 0.4068; sanitizes := true; alert := false |}.

(** A toolkit that parses ["CCO"] only and has no [sascorer] module. *)
Definition toolkit : Toolkit molecule :=
  {| MolFromSmiles := fun s =>
       if String.eqb s "CCO" then Ok (Some ethanol) else Ok None;
     SanitizeMol := fun m => if sanitizes m then Ok m else Raise ValueError;
     HasMatch := fun m => Ok (alert m);
     import_sascorer := Raise ModuleNotFoundError;
     GetFingerprint := fun _ => Ok [0; 1; 0; 0];
     Descriptors_MolLogP := logp;
     Crippen_MolLogP := logp;
     MolWt := mol_wt;
     TPSA := tpsa;
     NumHDonors := h_donors;
     NumHAcceptors := h_acceptors;
     NumRotatableBonds := rot_bonds;
     FractionCSP3 := fun _ => 1;
     RingCount := rings;
     NumAromaticRings := fun _ => 0%Z;
     HeavyAtomCount := heavy_atoms;
     qed := drug_likeness |}.

Definition constant_predictor (v : R) : Predictor := fun _ => Ok [v].
Definition failing_predictor : Predictor := fun _ => Raise RuntimeError.

(** The record of ethanol, evaluated without predictors. *)
Definition ethanol_record : gmap string pyval :=
  descriptor_record toolkit "CCO" ethanol
    (sa_approximation (logp ethanol) (mol_wt ethanol) (rot_bonds ethanol)).

(** A record with no predictor keys and an extreme [SA_Score]. *)
Definition plain_record : gmap string pyval :=
  <[ "SA_Score" := PyNum 1000000 ]>
  (<[ "BBB_Score" := PyNum 0.9 ]>
  (<[ "CNS_MPO" := PyNum 0.5 ]>
  (<[ "QED" := PyNum 0.8 ]> ∅))).

(** Two records that differ in the primary-target potency only. *)
Definition potent_record (p : R) : gmap string pyval :=
  <[ "pIC50_KEAP1" := PyNum p ]>
  (<[ "Selectivity_Score" := PyNum 1.5 ]> plain_record).

End Sample.

(** The number a numeric record holds under [key], [dflt] when it has
    none: what [props.get(key, dflt)] is on such a record. *)
Definition number_at (props : gmap string pyval) (key : string) (dflt : R)
    : R :=
  match props !! key with
  | Some (PyNum x) => x
  | _ => dflt
  end.

(** The six objectives of a numeric record, in closed form. *)
Definition numeric_scores (props : gmap string pyval) : scores.t :=
  scores.mk
    (logistic (number_at props "pIC50_KEAP1" 0.0) 2.0 7.5)
    (logistic (number_at props "Selectivity_Score" 0.0) 1.5 2.5)
    (logistic (number_at props "QED" 0.0) 10 0.6)
    (logistic (number_at props "CNS_MPO" 0.0) 15 0.5)
    (logistic (number_at props "BBB_Score" 0.0) 10 0.7)
    (logistic (- number_at props "SA_Score" 10.0) 1.0 (-3.5)).

(** ** The curation filter and the batch driver *)

(** [x <= bound] *)
Definition at_most (x bound : R) : bool :=
  if Rle_dec x bound then true else false.

(** [a and b] on operands that may raise: [b] is evaluated only when [a]
    is true. *)
Definition and_then (a b : outcome bool) : outcome bool :=
  x ← a; if (x : bool) then b else Ok false.

Section Curation.
Context {Mol : Type} (tk : Toolkit Mol).

(** Lines 45-50. *)
Definition check_lipinski (mol : Mol) : bool :=
  let mw := MolWt tk mol in
  let logp := Descriptors_MolLogP tk mol in
  let hbd := NumHDonors tk mol in
  let hba := NumHAcceptors tk mol in
  at_most mw 500 && at_most logp 5 && (hbd <=? 5)%Z && (hba <=? 10)%Z.

(** Lines 52-55. *)
Definition check_veber (mol : Mol) : bool :=
  let tpsa := TPSA tk mol in
  let rot_bonds := NumRotatableBonds tk mol in
  at_most tpsa 140 && (rot_bonds <=? 10)%Z.

(** Lines 69-83. *)
Definition filter_molecules (smiles : string) : outcome bool :=
  try_except
    (mol ← MolFromSmiles tk smiles;
     match mol with
     | None => Ok false
     | Some mol =>
         and_then (Ok (exceeds (qed tk mol) 0.6))
        (and_then (Ok (exceeds (calculate_cns_mpo tk mol) 0.5))
        (and_then (Ok (check_lipinski mol))
        (and_then (Ok (check_veber mol))
        (and_then (negb <$> has_pains tk mol)
                  (sa ← calculate_sa_score tk mol; Ok (at_most sa 4.5))))))
     end)
    any_exception
    (fun _ => Ok false).

(** The loop of lines 145-148, from the list [results] built so far. *)
Fixpoint collect_properties (keap1_m egfr_m ikkb_m : option Predictor)
    (smiles_list : list string) (results : list (gmap string pyval))
    : outcome (list (gmap string pyval)) :=
  match smiles_list with
  | [] => Ok results
  | smi :: rest =>
      props ← calculate_advanced_properties tk smi keap1_m egfr_m ikkb_m;
      let results :=
        match props with
        | Some record =>
            if py_not props then results else results ++ [record]
        | None => results
        end in
      collect_properties keap1_m egfr_m ikkb_m rest results
  end.

(** Lines 142-149; [tqdm] reports progress and hands the list on. *)
Definition calculate_advanced_properties_parallel (smiles_list : list string)
    (keap1_m egfr_m ikkb_m : option Predictor)
    : outcome (list (gmap string pyval)) :=
  collect_properties keap1_m egfr_m ikkb_m smiles_list [].

(** The evaluator returns on this encoding, a record or [None]. *)
Definition evaluates (keap1_m egfr_m ikkb_m : option Predictor)
    (smi : string) : Prop :=
  exists props,
    calculate_advanced_properties tk smi keap1_m egfr_m ikkb_m = Ok props.

(** What one encoding adds to the batch: its record, when the evaluator
    returns one. *)
Definition record_of (keap1_m egfr_m ikkb_m : option Predictor)
    (smi : string) : option (gmap string pyval) :=
  match calculate_advanced_properties tk smi keap1_m egfr_m ikkb_m with
  | Ok props => props
  | Raise _ => None
  end.

End Curation.

(** The seven keys of every returned record. *)
Definition required_keys : list string :=
  [ "SMILES"; "QED"; "CNS_MPO"; "SA_Score"; "RingCount"; "MolWt";
    "BBB_Score" ].

(** A value [_sigmoid] accepts: a number or [None], not a string. *)
Definition squashable (v : pyval) : bool :=
  match v with
  | PyStr _ => false
  | _ => true
  end.

(** A record the reward can read: what it gets under the first five keys
    is squashable, and what it gets under SA_Score is a number. *)
Definition readable (props : gmap string pyval) : bool :=
  squashable (get props "pIC50_KEAP1" (PyNum 0.0))
  && squashable (get props "Selectivity_Score" (PyNum 0.0))
  && squashable (get props "QED" (PyNum 0.0))
  && squashable (get props "CNS_MPO" (PyNum 0.0))
  && squashable (get props "BBB_Score" (PyNum 0.0))
  && is_number (Some (get props "SA_Score" (PyNum 10.0))).

(** The truth of [keap1_m and egfr_m and ikkb_m], line 123. *)
Definition all_supplied (keap1_m egfr_m ikkb_m : option Predictor) : bool :=
  match keap1_m, egfr_m, ikkb_m with
  | Some _, Some _, Some _ => true
  | _, _, _ => false
  end.

(** The number under [key], if the record holds one there. *)
Definition number_of (record : gmap string pyval) (key : string) : option R :=
  match record !! key with
  | Some (PyNum x) => Some x
  | _ => None
  end.

(** ** More sample inputs *)
Module Bench.

(** A molecule in the middle of every desirability window. *)
Definition candidate : Sample.molecule :=
  {| Sample.logp := 2.5; Sample.mol_wt := 400; Sample.tpsa := 75;
     Sample.h_donors := 2; Sample.h_acceptors := 5; Sample.rot_bonds := 4;
     Sample.rings := 3; Sample.heavy_atoms := 29;
     Sample.drug_likeness := 0.8; Sample.sanitizes := true;
     Sample.alert := false |}.

(** The sample toolkit with a second parsable encoding and a given outcome
    of [import sascorer]. *)
Definition toolkit_with
    (scorer : outcome (Sample.molecule -> outcome R))
    : Toolkit Sample.molecule :=
  {| MolFromSmiles := fun s =>
       if String.eqb s "CCO" then Ok (Some Sample.ethanol)
       else if String.eqb s "CC(=O)Nc1ccc(O)cc1" then Ok (Some candidate)
       else Ok None;
     SanitizeMol := SanitizeMol Sample.toolkit;
     HasMatch := HasMatch Sample.toolkit;
     import_sascorer := scorer;
     GetFingerprint := GetFingerprint Sample.toolkit;
     Descriptors_MolLogP := Sample.logp;
     Crippen_MolLogP := Sample.logp;
     MolWt := Sample.mol_wt;
     TPSA := Sample.tpsa;
     NumHDonors := Sample.h_donors;
     NumHAcceptors := Sample.h_acceptors;
     NumRotatableBonds := Sample.rot_bonds;
     FractionCSP3 := FractionCSP3 Sample.toolkit;
     RingCount := Sample.rings;
     NumAromaticRings := NumAromaticRings Sample.toolkit;
     HeavyAtomCount := Sample.heavy_atoms;
     qed := Sample.drug_likeness |}.

(** [sascorer] installed and scoring 3.2; installed and failing. *)
Definition with_scorer : Toolkit Sample.molecule :=
  toolkit_with (Ok (fun _ => Ok 3.2)).
Definition with_broken_scorer : Toolkit Sample.molecule :=
  toolkit_with (Ok (fun _ => Raise ValueError)).
Definition without_scorer : Toolkit Sample.molecule :=
  toolkit_with (Raise ModuleNotFoundError).

(** The record of ethanol under predictors that answer 7, 5 and 6. *)
Definition ethanol_with_potency : gmap string pyval :=
  <[ "Selectivity_Score" := PyNum (7 - Rmax 5 6) ]>
  (<[ "pIC50_IKKb" := PyNum 6 ]>
  (<[ "pIC50_EGFR" := PyNum 5 ]>
  (<[ "pIC50_KEAP1" := PyNum 7 ]> Sample.ethanol_record))).

(** A record whose SA_Score is [None], and one whose QED is. *)
Definition record_without_sa : gmap string pyval :=
  <[ "SA_Score" := PyNone ]> Sample.plain_record.
Definition record_without_qed : gmap string pyval :=
  <[ "QED" := PyNone ]> Sample.plain_record.

End Bench.

(** * Properties *)

(** ** Facts about the logistic function and the clamp *)

Lemma logistic_bounds (x k x0 : R) : 0 < logistic x k x0 < 1.
Proof.
  unfold logistic.
  pose proof (exp_pos (- k * (x - x0))) as He.
  set (e := exp (- k * (x - x0))) in *.
  assert (Hq : 1 / (1 + e) * (1 + e) = 1) by (field; lra).
  assert (Hpos : 0 < 1 / (1 + e)).
  { apply Rdiv_lt_0_compat; lra. }
  split; [exact Hpos | nra].
Qed.

Lemma logistic_monotone (x y k x0 : R) :
  0 <= k -> x <= y -> logistic x k x0 <= logistic y k x0.
Proof.
  intros Hk Hxy. unfold logistic.
  assert (Hexp : exp (- k * (y - x0)) <= exp (- k * (x - x0))).
  { destruct (Req_dec (- k * (y - x0)) (- k * (x - x0))) as [-> | Hne].
    - lra.
    - left. apply exp_increasing. nra. }
  pose proof (exp_pos (- k * (y - x0))) as Hy.
  pose proof (exp_pos (- k * (x - x0))) as Hx.
  unfold Rdiv. rewrite !Rmult_1_l.
  apply Rinv_le_contravar; lra.
Qed.

Ltac split_min_max :=
  unfold clip, Rmin, Rmax;
  repeat match goal with
         | |- context [Rle_dec ?a ?b] => destruct (Rle_dec a b)
         | H : context [Rle_dec ?a ?b] |- _ => destruct (Rle_dec a b)
         end.

Lemma clip_bounds (x : R) : 0 <= clip x 0 1 <= 1.
Proof. split_min_max; lra. Qed.

Lemma clip_monotone (x y : R) : x <= y -> clip x 0 1 <= clip y 0 1.
Proof. intros Hxy. split_min_max; lra. Qed.

Lemma clip_id (x : R) : 0 <= x <= 1 -> clip x 0 1 = x.
Proof. intros Hx. split_min_max; lra. Qed.

Lemma sigmoid_number (x k x0 : R) :
  _sigmoid (PyNum x) k x0 = Ok (logistic x k x0).
Proof. reflexivity. Qed.

(** ** The reward aggregator *)

Lemma get_number (props : gmap string pyval) (key : string) (dflt : R) :
  is_number (props !! key) = true ->
  get props key (PyNum dflt) = PyNum (number_at props key dflt).
Proof.
  unfold get, number_at, is_number.
  destruct (props !! key) as [[ | s | x] | ]; simpl; congruence.
Qed.

Lemma numeric_record_keys (props : gmap string pyval) :
  numeric_record props = true ->
  Forall (fun key => is_number (props !! key) = true) reward_keys.
Proof.
  unfold numeric_record. intros H.
  apply Forall_forall. intros key Hin.
  rewrite forallb_forall in H. apply H.
  apply list_elem_of_In. exact Hin.
Qed.

Lemma objective_scores_numeric (props : gmap string pyval) :
  numeric_record props = true ->
  objective_scores props = Ok (numeric_scores props).
Proof.
  intros H. apply numeric_record_keys in H.
  unfold reward_keys in H.
  repeat match goal with
         | H : Forall _ (_ :: _) |- _ =>
             apply Forall_cons in H; destruct H as [? H]
         end.
  unfold objective_scores.
  rewrite !get_number by assumption.
  reflexivity.
Qed.

Lemma weighted_sum_bounds (w : weights.t) (s : scores.t) :
  0 <= weights.r_pic50 w -> 0 <= weights.r_sel w -> 0 <= weights.r_qed w ->
  0 <= weights.r_cns w -> 0 <= weights.r_bbb w -> 0 <= weights.r_sa w ->
  0 <= scores.r_pic50 s <= 1 -> 0 <= scores.r_sel s <= 1 ->
  0 <= scores.r_qed s <= 1 -> 0 <= scores.r_cns s <= 1 ->
  0 <= scores.r_bbb s <= 1 -> 0 <= scores.r_sa s <= 1 ->
  0 <= weighted_sum w s <= total_weight w.
Proof.
  destruct w, s; unfold weighted_sum, total_weight; simpl. intros. nra.
Qed.

Lemma total_weight_initial : total_weight initial_weights = 1.
Proof. unfold total_weight, initial_weights; simpl. lra. Qed.

Lemma redistribute_initial :
  redistribute initial_weights = redistributed_weights.
Proof.
  unfold redistribute, initial_weights, redistributed_weights; simpl.
  f_equal; lra.
Qed.

Lemma total_weight_redistributed : total_weight redistributed_weights = 1.
Proof. unfold total_weight, redistributed_weights; simpl. lra. Qed.

Lemma total_weight_effective (props : gmap string pyval) :
  total_weight (effective_weights props) = 1.
Proof.
  unfold effective_weights.
  destruct (props !! "pIC50_KEAP1").
  - apply total_weight_initial.
  - rewrite redistribute_initial. apply total_weight_redistributed.
Qed.

Lemma py_not_nonempty (props : gmap string pyval) (key : string) (v : pyval) :
  props !! key = Some v -> py_not (Some props) = false.
Proof.
  intros Hk. unfold py_not. apply Nat.eqb_neq.
  intros Hsize. apply map_size_empty_iff in Hsize.
  rewrite Hsize, lookup_empty in Hk. discriminate.
Qed.

(** The reward of a non-empty record whose six objectives evaluate. *)
Lemma reward_of_scores (props : gmap string pyval) (s : scores.t) :
  py_not (Some props) = false ->
  objective_scores props = Ok s ->
  calculate_multi_objective_reward (Some props) =
    Ok (clip (weighted_sum (effective_weights props) s
              / total_weight (effective_weights props)) 0 1).
Proof.
  intros Hne Hs. unfold calculate_multi_objective_reward.
  rewrite Hne. change (default ∅ (Some props)) with props.
  rewrite Hs. cbn [mbind outcome_bind].
  destruct (Req_dec_T _ 0) as [Hz | _]; [ | reflexivity].
  rewrite total_weight_effective in Hz. lra.
Qed.

(** Before the clamp the score of a numeric record already lies between 0
    and 1: the clamp of line 185 leaves it as it is. *)
Lemma numeric_score_in_unit_interval (props : gmap string pyval) :
  0 <= weighted_sum (effective_weights props) (numeric_scores props)
       / total_weight (effective_weights props) <= 1.
Proof.
  rewrite total_weight_effective, Rdiv_1_r.
  rewrite <- (total_weight_effective props).
  apply weighted_sum_bounds;
    try (unfold effective_weights; destruct (props !! "pIC50_KEAP1");
         rewrite ?redistribute_initial; simpl; lra);
    simpl;
    match goal with
    | |- 0 <= logistic ?x ?k ?x0 <= 1 =>
        pose proof (logistic_bounds x k x0); lra
    end.
Qed.

(** C5.  Applied to a null record, the reward function returns exactly
    0.01, the fixed floor value, which is positive and so never zero. *)
Theorem reward_of_null_record :
  calculate_multi_objective_reward None = Ok 0.01
  /\ 0 < 0.01
  /\ 0.01 <> 0.
Proof.
  split; [reflexivity | split; lra].
Qed.

(** C4.  For every property record whose property values are numbers
    (whatever their size), and for the null record, the reward function
    returns a value, and that value lies in [0, 1] inclusive. *)
Theorem reward_in_unit_interval (props : option (gmap string pyval)) :
  (forall record, props = Some record -> numeric_record record = true) ->
  exists v, calculate_multi_objective_reward props = Ok v /\ 0 <= v <= 1.
Proof.
  intros Hnum. destruct props as [record | ].
  - destruct (py_not (Some record)) eqn:Hempty.
    + exists 0.01. unfold calculate_multi_objective_reward.
      rewrite Hempty. split; [reflexivity | lra].
    + eexists. split.
      * apply (reward_of_scores record (numeric_scores record) Hempty).
        apply objective_scores_numeric. apply Hnum. reflexivity.
      * apply clip_bounds.
  - exists 0.01. split; [reflexivity | lra].
Qed.

Lemma reward_in_unit_interval_witness :
  exists v,
    calculate_multi_objective_reward (Some Sample.plain_record) = Ok v
    /\ 0 <= v <= 1.
Proof.
  apply (reward_in_unit_interval (Some Sample.plain_record)).
  intros record Heq. injection Heq as <-. vm_compute. reflexivity.
Defined.

(** C10.  The effective weights sum to exactly 1 for every record, with
    the potency key or without it, in real arithmetic and in binary64
    alike; hence the zero-total branch of line 177 is never taken and the
    score is the weighted sum divided by 1. *)
Theorem total_weight_is_one :
  (forall props : gmap string pyval, total_weight (effective_weights props) = 1)
  /\ (forall has_potency : bool,
        Binary64.total_weight (Binary64.effective_weights has_potency)
        = Binary64.one)
  /\ (forall (props : gmap string pyval) (s : scores.t),
        py_not (Some props) = false ->
        objective_scores props = Ok s ->
        calculate_multi_objective_reward (Some props)
        = Ok (clip (weighted_sum (effective_weights props) s / 1) 0 1)).
Proof.
  split; [exact total_weight_effective | split].
  - intros [ | ]; vm_compute; reflexivity.
  - intros props s Hne Hs.
    rewrite (reward_of_scores props s Hne Hs), total_weight_effective.
    reflexivity.
Qed.

Lemma total_weight_is_one_witness :
  calculate_multi_objective_reward (Some Sample.plain_record)
  = Ok (clip (weighted_sum (effective_weights Sample.plain_record)
                (numeric_scores Sample.plain_record) / 1) 0 1).
Proof.
  apply (proj2 (proj2 total_weight_is_one)).
  - vm_compute. reflexivity.
  - apply objective_scores_numeric. vm_compute. reflexivity.
Defined.

(** C1, as the specification lists the weights: for a record without the
    predictor keys the weights in use are not the listed ones, whose
    drug-likeness entry is 0.15 + 0.125. *)
Lemma listed_weights_not_used :
  effective_weights Sample.plain_record <> listed_weights.
Proof.
  unfold effective_weights.
  replace (Sample.plain_record !! "pIC50_KEAP1") with (@None pyval)
    by (vm_compute; reflexivity).
  rewrite redistribute_initial.
  unfold redistributed_weights, listed_weights.
  intros Heq. injection Heq as Hqed Hsa. lra.
Qed.

(** C1, amended.  For every property record that lacks the potency key
    (so for every record that lacks the potency and selectivity keys), the
    reward computation uses the effective weights potency 0, selectivity
    0, drug-likeness 0.15 + 0.275, CNS 0.10, BBB 0.10 and synthesis-ease
    0.10 + 0.275: the potency and selectivity weights are zeroed and their
    combined mass 0.55 is split 50/50 onto the drug-likeness and
    synthesis-ease weights, and the normalizing total is taken from these
    weights. *)
Theorem weights_redistributed (props : gmap string pyval) :
  props !! "pIC50_KEAP1" = None ->
  effective_weights props
  = weights.mk 0 0 (0.15 + 0.275) 0.10 0.10 (0.10 + 0.275)
  /\ (forall s : scores.t,
        py_not (Some props) = false ->
        objective_scores props = Ok s ->
        calculate_multi_objective_reward (Some props)
        = Ok (clip
                (((0.15 + 0.275) * scores.r_qed s + 0.10 * scores.r_cns s
                  + 0.10 * scores.r_bbb s + (0.10 + 0.275) * scores.r_sa s)
                 / (0.15 + 0.275 + 0.10 + 0.10 + (0.10 + 0.275))) 0 1)).
Proof.
  intros Hkey.
  assert (Hw : effective_weights props = redistributed_weights).
  { unfold effective_weights. rewrite Hkey. apply redistribute_initial. }
  split; [exact Hw | ].
  intros s Hne Hs. rewrite (reward_of_scores props s Hne Hs), Hw.
  f_equal. f_equal.
  unfold weighted_sum, total_weight, redistributed_weights; simpl.
  f_equal; lra.
Qed.

Lemma weights_redistributed_witness :
  effective_weights Sample.plain_record
  = weights.mk 0 0 (0.15 + 0.275) 0.10 0.10 (0.10 + 0.275).
Proof.
  apply (weights_redistributed Sample.plain_record).
  vm_compute. reflexivity.
Defined.

Lemma numeric_record_agree (r1 r2 : gmap string pyval) (key0 : string) (p : R) :
  r2 !! key0 = Some (PyNum p) ->
  (forall key : string, key <> key0 -> r1 !! key = r2 !! key) ->
  numeric_record r1 = true ->
  numeric_record r2 = true.
Proof.
  unfold numeric_record. rewrite !forallb_forall.
  intros H2 Hagree Hnum key Hin.
  destruct (decide (key = key0)) as [-> | Hne].
  - rewrite H2. reflexivity.
  - rewrite <- (Hagree key Hne). apply Hnum, Hin.
Qed.

(** C8.  For two numeric property records that agree on all fields except
    the primary-target potency estimate, if the potency of the second is
    greater than or equal to that of the first, then both rewards exist
    and the reward of the second is greater than or equal to the reward of
    the first. *)
Theorem reward_monotone_in_potency (r1 r2 : gmap string pyval) (p1 p2 : R) :
  r1 !! "pIC50_KEAP1" = Some (PyNum p1) ->
  r2 !! "pIC50_KEAP1" = Some (PyNum p2) ->
  (forall key : string, key <> "pIC50_KEAP1" -> r1 !! key = r2 !! key) ->
  numeric_record r1 = true ->
  p1 <= p2 ->
  exists v1 v2,
    calculate_multi_objective_reward (Some r1) = Ok v1
    /\ calculate_multi_objective_reward (Some r2) = Ok v2
    /\ v1 <= v2.
Proof.
  intros H1 H2 Hagree Hnum1 Hle.
  pose proof (numeric_record_agree r1 r2 _ p2 H2 Hagree Hnum1) as Hnum2.
  do 2 eexists. split; [ | split].
  - apply (reward_of_scores r1 (numeric_scores r1)).
    + exact (py_not_nonempty r1 _ _ H1).
    + apply objective_scores_numeric, Hnum1.
  - apply (reward_of_scores r2 (numeric_scores r2)).
    + exact (py_not_nonempty r2 _ _ H2).
    + apply objective_scores_numeric, Hnum2.
  - apply clip_monotone.
    rewrite !total_weight_effective, !Rdiv_1_r.
    unfold effective_weights. rewrite H1, H2.
    unfold weighted_sum, numeric_scores, initial_weights, number_at; simpl.
    rewrite H1, H2.
    rewrite <- !Hagree by discriminate.
    pose proof (logistic_monotone p1 p2 2.0 7.5 ltac:(lra) Hle).
    lra.
Qed.

Lemma reward_monotone_in_potency_witness :
  exists v1 v2,
    calculate_multi_objective_reward (Some (Sample.potent_record 6)) = Ok v1
    /\ calculate_multi_objective_reward (Some (Sample.potent_record 8)) = Ok v2
    /\ v1 <= v2.
Proof.
  apply (reward_monotone_in_potency
           (Sample.potent_record 6) (Sample.potent_record 8) 6 8).
  - vm_compute. reflexivity.
  - vm_compute. reflexivity.
  - intros key Hne. unfold Sample.potent_record.
    etrans; [apply lookup_insert_ne; congruence | ].
    symmetry. apply lookup_insert_ne. congruence.
  - vm_compute. reflexivity.
  - lra.
Defined.

(** ** The property evaluator *)

Section EvaluatorFacts.
Context {Mol : Type} (tk : Toolkit Mol).

Ltac run_guard :=
  unfold accepted_molecule, try_except, check_valency, has_pains,
    any_exception;
  cbn [mbind outcome_bind negb].


Lemma accepted_molecule_inv (smiles : string) (mol : Mol) :
  accepted_molecule tk smiles = Ok (Some mol) ->
  exists mol0,
    MolFromSmiles tk smiles = Ok (Some mol0)
    /\ SanitizeMol tk mol0 = Ok mol
    /\ HasMatch tk mol = Ok false.
Proof.
  run_guard.
  destruct (MolFromSmiles tk smiles) as [[mol0 | ] | e]; cbn;
    try discriminate.
  destruct (SanitizeMol tk mol0) as [mol' | e] eqn:Hs; cbn;
    try discriminate.
  destruct (HasMatch tk mol') as [[ | ] | e] eqn:Hm; cbn; try discriminate.
  intros [= <-]. exists mol0. auto.
Qed.

Lemma rejected_not_accepted (smiles : string) :
  rejected tk smiles -> accepted_molecule tk smiles = Ok None.
Proof.
  intros [[e He] | [Hnone | (mol0 & Hparse & Hrest)]]; run_guard.
  - rewrite He. reflexivity.
  - rewrite Hnone. reflexivity.
  - rewrite Hparse. cbn.
    destruct Hrest as [[e He] | (mol & Hsan & [Hhit | [e He]])].
    + rewrite He. reflexivity.
    + rewrite Hsan. cbn. rewrite Hhit. reflexivity.
    + rewrite Hsan. cbn. rewrite He. reflexivity.
Qed.

Lemma predictor_block_inv (mol : Mol) (record record' : gmap string pyval)
    (keap1_m egfr_m ikkb_m : Predictor) :
  predictor_block tk mol record keap1_m egfr_m ikkb_m = Ok record' ->
  exists features pic50_keap1 pic50_egfr pic50_ikkb,
    get_features tk mol = Ok features
    /\ invoke keap1_m features = Ok pic50_keap1
    /\ invoke egfr_m features = Ok pic50_egfr
    /\ invoke ikkb_m features = Ok pic50_ikkb
    /\ record' =
         <[ "Selectivity_Score" :=
              PyNum (pic50_keap1 - Rmax pic50_egfr pic50_ikkb) ]>
         (<[ "pIC50_IKKb" := PyNum pic50_ikkb ]>
         (<[ "pIC50_EGFR" := PyNum pic50_egfr ]>
         (<[ "pIC50_KEAP1" := PyNum pic50_keap1 ]> record))).
Proof.
  unfold predictor_block. fold (invoke keap1_m) (invoke egfr_m) (invoke ikkb_m).
  destruct (get_features tk mol) as [features | e]; cbn; try discriminate.
  fold (invoke keap1_m features) (invoke egfr_m features)
    (invoke ikkb_m features).
  destruct (invoke keap1_m features) as [pk | e] eqn:Hk; cbn;
    try discriminate.
  destruct (invoke egfr_m features) as [pe | e] eqn:He; cbn;
    try discriminate.
  destruct (invoke ikkb_m features) as [pi | e] eqn:Hi; cbn;
    try discriminate.
  intros [= <-]. exists features, pk, pe, pi. auto 10.
Qed.

(** What a returned record is: the descriptor record of the accepted
    molecule, with the four predictor fields when the block ran. *)
Lemma evaluator_inv (smiles : string) (keap1_m egfr_m ikkb_m : option Predictor)
    (record : gmap string pyval) :
  calculate_advanced_properties tk smiles keap1_m egfr_m ikkb_m
  = Ok (Some record) ->
  exists mol sa,
    accepted_molecule tk smiles = Ok (Some mol)
    /\ calculate_sa_score tk mol = Ok sa
    /\ (record = descriptor_record tk smiles mol sa
        \/ exists k e i,
             keap1_m = Some k /\ egfr_m = Some e /\ ikkb_m = Some i
             /\ predictor_block tk mol (descriptor_record tk smiles mol sa)
                  k e i = Ok record).
Proof.
  unfold calculate_advanced_properties.
  destruct (accepted_molecule tk smiles) as [[mol | ] | ex] eqn:Hacc; cbn;
    try discriminate.
  destruct (calculate_sa_score tk mol) as [sa | ex] eqn:Hsa; cbn;
    try discriminate.
  intros H. exists mol, sa. split; [reflexivity | split; [exact Hsa | ]].
  destruct keap1_m as [k | ], egfr_m as [e | ], ikkb_m as [i | ];
    try (injection H as <-; left; reflexivity).
  right. exists k, e, i. repeat split.
  unfold try_except in H.
  destruct (predictor_block tk mol _ k e i) as [r | ex]; cbn in H.
  - injection H as <-. reflexivity.
  - destruct (is_Exception ex); discriminate.
Qed.

End EvaluatorFacts.

Lemma bbb_score_range (tpsa : R) (hbd : Z) (logp : R) :
  0.7 <= bbb_score tpsa hbd logp <= 1.
Proof.
  unfold bbb_score.
  destruct (Rgt_dec tpsa 90), (5 <? hbd)%Z, (Rgt_dec logp 5); lra.
Qed.

Lemma bbb_score_as_specified (tpsa : R) (hbd : Z) (logp : R) :
  bbb_score tpsa hbd logp = bbb_spec tpsa hbd logp.
Proof.
  unfold bbb_score, bbb_spec, exceeds. cbn [fold_left].
  destruct (Rgt_dec tpsa 90), (Rgt_dec logp 5);
    case_bool_decide; destruct (Z.ltb_spec 5 hbd); try lia; lra.
Qed.

(** With all three penalties the score is 0.7, its least value. *)
Example bbb_score_all_penalties : bbb_score 150 8 6 = 0.7.
Proof.
  unfold bbb_score.
  destruct (Rgt_dec 150 90), (Rgt_dec 6 5); cbn; lra.
Qed.

Section EvaluatorProperties.
Context {Mol : Type} (tk : Toolkit Mol).

Lemma descriptor_record_no_predictor_key (smiles : string) (mol : Mol)
    (sa : R) (key : string) :
  key ∈ predictor_keys ->
  descriptor_record tk smiles mol sa !! key = None.
Proof.
  unfold predictor_keys, descriptor_record. intros Hin.
  repeat (apply elem_of_cons in Hin; destruct Hin as [-> | Hin]);
    [ | | | | apply elem_of_nil in Hin; contradiction ];
    vm_compute; reflexivity.
Qed.

(** The BBB field of a returned record, and the molecule it is of. *)
Lemma evaluator_bbb (smiles : string) (keap1_m egfr_m ikkb_m : option Predictor)
    (record : gmap string pyval) :
  calculate_advanced_properties tk smiles keap1_m egfr_m ikkb_m
  = Ok (Some record) ->
  exists mol0 mol,
    MolFromSmiles tk smiles = Ok (Some mol0)
    /\ SanitizeMol tk mol0 = Ok mol
    /\ HasMatch tk mol = Ok false
    /\ record !! "BBB_Score" =
         Some (PyNum (bbb_score (TPSA tk mol) (NumHDonors tk mol)
                        (Crippen_MolLogP tk mol))).
Proof.
  intros H. apply evaluator_inv in H as (mol & sa & Hacc & _ & Hrec).
  apply accepted_molecule_inv in Hacc as (mol0 & Hparse & Hsan & Hhit).
  exists mol0, mol. repeat split; try assumption.
  assert (Hbase : descriptor_record tk smiles mol sa !! "BBB_Score" =
            Some (PyNum (bbb_score (TPSA tk mol) (NumHDonors tk mol)
                           (Crippen_MolLogP tk mol)))).
  { unfold descriptor_record. apply lookup_insert_eq. }
  destruct Hrec as [-> | (k & e & i & _ & _ & _ & Hblock)]; [exact Hbase | ].
  apply predictor_block_inv in Hblock
    as (features & pk & pe & pi & _ & _ & _ & _ & ->).
  rewrite !lookup_insert_ne by discriminate. exact Hbase.
Qed.

(** C3.  For every molecule accepted by the property evaluator, the BBB
    heuristic score of the returned record is 1.0 minus 0.1 if the
    topological polar surface area is above 90, minus a further 0.1 if
    the H-bond donor count is above 5, minus a further 0.1 if the
    computed logP is above 5, each penalty on its own. *)
Theorem bbb_score_formula (smiles : string)
    (keap1_m egfr_m ikkb_m : option Predictor) (record : gmap string pyval) :
  calculate_advanced_properties tk smiles keap1_m egfr_m ikkb_m
  = Ok (Some record) ->
  exists mol0 mol,
    MolFromSmiles tk smiles = Ok (Some mol0)
    /\ SanitizeMol tk mol0 = Ok mol
    /\ record !! "BBB_Score" =
         Some (PyNum (bbb_spec (TPSA tk mol) (NumHDonors tk mol)
                        (Crippen_MolLogP tk mol))).
Proof.
  intros H.
  apply evaluator_bbb in H as (mol0 & mol & Hparse & Hsan & _ & Hbbb).
  exists mol0, mol. rewrite <- bbb_score_as_specified. auto.
Qed.

(** C2, amended.  For every molecule the property evaluator accepts,
    the BBB heuristic score is never negative: the three penalties take
    at most 0.3 off 1.0, so the score lies between 0.7 and 1.0. *)
Theorem bbb_score_at_least_0_7 (smiles : string)
    (keap1_m egfr_m ikkb_m : option Predictor) (record : gmap string pyval) :
  calculate_advanced_properties tk smiles keap1_m egfr_m ikkb_m
  = Ok (Some record) ->
  exists b, record !! "BBB_Score" = Some (PyNum b) /\ 0.7 <= b <= 1.
Proof.
  intros H.
  apply evaluator_bbb in H as (mol0 & mol & _ & _ & _ & Hbbb).
  eexists. split; [exact Hbbb | apply bbb_score_range].
Qed.

(** C7.  Whenever the dedicated synthetic-accessibility scorer is
    unavailable (its import raises an [ImportError]), the score is
    min(2.5 + 0.1*(MW/100) + 0.2*rotatable_bonds + 0.3*|logP - 2.5|,
    10.0). *)
Theorem sa_score_fallback (mol : Mol) (e : exn) :
  import_sascorer tk = Raise e ->
  is_ImportError e = true ->
  calculate_sa_score tk mol =
    Ok (Rmin (2.5 + 0.1 * (MolWt tk mol / 100)
              + 0.2 * IZR (NumRotatableBonds tk mol)
              + 0.3 * Rabs (Descriptors_MolLogP tk mol - 2.5)) 10.0).
Proof.
  intros Himport Hclass. unfold calculate_sa_score, try_except.
  rewrite Himport. cbn [mbind outcome_bind]. rewrite Hclass. reflexivity.
Qed.

(** C9.  For every encoding that fails to parse, fails the
    valency/sanitization check, or matches a structural alert, the
    property evaluator returns null: it returns, and raises nothing,
    whatever the predictors are. *)
Theorem rejected_returns_none (smiles : string)
    (keap1_m egfr_m ikkb_m : option Predictor) :
  rejected tk smiles ->
  calculate_advanced_properties tk smiles keap1_m egfr_m ikkb_m = Ok None.
Proof.
  intros Hrej. unfold calculate_advanced_properties.
  rewrite (rejected_not_accepted tk smiles Hrej). reflexivity.
Qed.

(** C6.  Every non-null record the evaluator returns holds the four
    predictor-derived keys all together or not at all; and when the
    three predictors are supplied and an invocation raises an exception,
    the evaluator returns null, not a partly filled record. *)
Theorem predictor_fields_atomic (smiles : string) :
  (forall (keap1_m egfr_m ikkb_m : option Predictor)
          (record : gmap string pyval),
      calculate_advanced_properties tk smiles keap1_m egfr_m ikkb_m
      = Ok (Some record) ->
      predictor_keys_atomic record)
  /\ (forall (keap1_m egfr_m ikkb_m : Predictor) (mol : Mol) (sa : R)
             (features : list R),
        accepted_molecule tk smiles = Ok (Some mol) ->
        calculate_sa_score tk mol = Ok sa ->
        get_features tk mol = Ok features ->
        some_invocation_raises keap1_m egfr_m ikkb_m features ->
        calculate_advanced_properties tk smiles
          (Some keap1_m) (Some egfr_m) (Some ikkb_m) = Ok None).
Proof.
  split.
  - intros keap1_m egfr_m ikkb_m record H.
    apply evaluator_inv in H as (mol & sa & _ & _ & Hrec).
    destruct Hrec as [-> | (k & e & i & _ & _ & _ & Hblock)].
    + right. apply Forall_forall. intros key Hin.
      apply descriptor_record_no_predictor_key, Hin.
    + left.
      apply predictor_block_inv in Hblock
        as (features & pk & pe & pi & _ & _ & _ & _ & ->).
      unfold predictor_keys.
      repeat apply Forall_cons_2; try apply Forall_nil_2;
        eexists;
        rewrite ?lookup_insert_ne by discriminate;
        apply lookup_insert_eq.
  - intros keap1_m egfr_m ikkb_m mol sa features Hacc Hsa Hfeat Hraise.
    unfold calculate_advanced_properties.
    rewrite Hacc. cbn [mbind outcome_bind]. rewrite Hsa.
    cbn [mbind outcome_bind].
    unfold predictor_block. rewrite Hfeat. cbn [mbind outcome_bind].
    fold (invoke keap1_m features) (invoke egfr_m features)
      (invoke ikkb_m features).
    destruct Hraise as [(ex & Hk & Hex)
                       | [(pk & Hk & ex & He & Hex)
                         | (pk & pe & Hk & He & ex & Hi & Hex)]].
    + rewrite Hk. cbn. rewrite Hex. reflexivity.
    + rewrite Hk. cbn [mbind outcome_bind]. rewrite He. cbn.
      rewrite Hex. reflexivity.
    + rewrite Hk. cbn [mbind outcome_bind]. rewrite He.
      cbn [mbind outcome_bind]. rewrite Hi. cbn. rewrite Hex. reflexivity.
Qed.

End EvaluatorProperties.

(** C2, as stated: no molecule, whatever the toolkit computes for it, gets
    a negative BBB heuristic score from the property evaluator. *)
Lemma no_negative_bbb_score :
  ~ exists (Mol : Type) (tk : Toolkit Mol) (smiles : string)
      (keap1_m egfr_m ikkb_m : option Predictor)
      (record : gmap string pyval) (b : R),
      calculate_advanced_properties tk smiles keap1_m egfr_m ikkb_m
      = Ok (Some record)
      /\ record !! "BBB_Score" = Some (PyNum b)
      /\ b < 0.
Proof.
  intros (Mol & tk & smiles & k & e & i & record & b & Heval & Hb & Hneg).
  apply evaluator_bbb in Heval as (mol0 & mol & _ & _ & _ & Hbbb).
  rewrite Hbbb in Hb. injection Hb as <-.
  pose proof (bbb_score_range (TPSA tk mol) (NumHDonors tk mol)
                (Crippen_MolLogP tk mol)).
  lra.
Qed.

(** ** The claims on the sample inputs *)

Lemma sample_ethanol_evaluates :
  calculate_advanced_properties Sample.toolkit "CCO" None None None
  = Ok (Some Sample.ethanol_record).
Proof. reflexivity. Qed.

Lemma bbb_score_formula_witness :
  exists mol0 mol,
    MolFromSmiles Sample.toolkit "CCO" = Ok (Some mol0)
    /\ SanitizeMol Sample.toolkit mol0 = Ok mol
    /\ Sample.ethanol_record !! "BBB_Score" =
         Some (PyNum (bbb_spec (TPSA Sample.toolkit mol)
                        (NumHDonors Sample.toolkit mol)
                        (Crippen_MolLogP Sample.toolkit mol))).
Proof.
  apply (bbb_score_formula Sample.toolkit "CCO" None None None).
  reflexivity.
Defined.

Lemma bbb_score_at_least_0_7_witness :
  exists b,
    Sample.ethanol_record !! "BBB_Score" = Some (PyNum b) /\ 0.7 <= b <= 1.
Proof.
  apply (bbb_score_at_least_0_7 Sample.toolkit "CCO" None None None).
  reflexivity.
Defined.

Lemma sa_score_fallback_witness :
  calculate_sa_score Sample.toolkit Sample.ethanol =
    Ok (Rmin (2.5 + 0.1 * (46.069 / 100) + 0.2 * IZR 0
              + 0.3 * Rabs (-0.0014 - 2.5)) 10.0).
Proof.
  apply (sa_score_fallback Sample.toolkit Sample.ethanol ModuleNotFoundError);
    reflexivity.
Defined.

Lemma rejected_returns_none_witness :
  calculate_advanced_properties Sample.toolkit "not_a_smiles"
    (Some (Sample.constant_predictor 7)) None None = Ok None.
Proof.
  apply (rejected_returns_none Sample.toolkit).
  right. left. reflexivity.
Defined.

Lemma predictor_fields_atomic_witness :
  predictor_keys_atomic Sample.ethanol_record
  /\ calculate_advanced_properties Sample.toolkit "CCO"
       (Some (Sample.constant_predictor 7))
       (Some Sample.failing_predictor)
       (Some (Sample.constant_predictor 5)) = Ok None.
Proof.
  split.
  - apply (proj1 (predictor_fields_atomic Sample.toolkit "CCO")
             None None None).
    reflexivity.
  - eapply (proj2 (predictor_fields_atomic Sample.toolkit "CCO")).
    + reflexivity.
    + reflexivity.
    + reflexivity.
    + right. left. exists 7. split; [reflexivity | ].
      exists RuntimeError. split; reflexivity.
Defined.

(** ** The doubles behind the weight table *)

(** The literals 0.35 and 0.10 as doubles: 0x1.6666666666666p-2 and
    0x1.999999999999ap-4. *)
Example binary64_literals :
  Binary64.literal 35 100 = S754_finite false 6305039478318694 (-54)
  /\ Binary64.literal 10 100 = S754_finite false 7205759403792794 (-56).
Proof. split; vm_compute; reflexivity. Qed.

(** On doubles the redistributed drug-likeness weight is
    0.42500000000000004 (0x1.b333333333334p-2), one unit in the last place
    above the double of 0.425; the total is 1.0 all the same. *)
Example binary64_redistributed_qed :
  Binary64.r_qed (Binary64.effective_weights false)
  = S754_finite false 7656119366529844 (-54).
Proof. vm_compute. reflexivity. Qed.

(** * Further properties of the module *)

(** ** The CNS score and the synthetic-accessibility score *)




Lemma sa_approximation_range (logp mw : R) (rot_bonds : Z) :
  0 <= mw -> (0 <= rot_bonds)%Z ->
  2.5 <= sa_approximation logp mw rot_bonds <= 10.
Proof.
  intros Hmw Hrot. unfold sa_approximation.
  pose proof (Rabs_pos (logp - 2.5)) as Habs.
  apply IZR_le in Hrot.
  split_min_max; lra.
Qed.

(** X2.  Without [sascorer], the score of a molecule of non-negative
    weight and rotatable-bond count is returned and lies between 2.5 and
    10. *)
Theorem sa_score_fallback_range {Mol : Type} (tk : Toolkit Mol) (mol : Mol)
    (e : exn) :
  import_sascorer tk = Raise e ->
  is_ImportError e = true ->
  0 <= MolWt tk mol ->
  (0 <= NumRotatableBonds tk mol)%Z ->
  exists s, calculate_sa_score tk mol = Ok s /\ 2.5 <= s <= 10.
Proof.
  intros Himport Hclass Hmw Hrot. eexists. split.
  - unfold calculate_sa_score, try_except.
    rewrite Himport. cbn [mbind outcome_bind]. rewrite Hclass. reflexivity.
  - apply sa_approximation_range; assumption.
Qed.

Lemma sa_score_fallback_range_witness :
  exists s,
    calculate_sa_score Sample.toolkit Sample.ethanol = Ok s /\ 2.5 <= s <= 10.
Proof.
  apply (sa_score_fallback_range Sample.toolkit Sample.ethanol
           ModuleNotFoundError).
  - reflexivity.
  - reflexivity.
  - cbn. lra.
  - cbn. lia.
Defined.

(** X3.  With [sascorer] installed the score is what [calculateScore]
    returns, with no cap; an exception it raises goes on to the caller
    unless it is an [ImportError], which gives the fallback value. *)
Theorem sa_score_preferred_path {Mol : Type} (tk : Toolkit Mol) (mol : Mol)
    (calculateScore : Mol -> outcome R) :
  import_sascorer tk = Ok calculateScore ->
  (forall v, calculateScore mol = Ok v -> calculate_sa_score tk mol = Ok v)
  /\ (forall ex, calculateScore mol = Raise ex ->
        is_ImportError ex = false ->
        calculate_sa_score tk mol = Raise ex)
  /\ (forall ex, calculateScore mol = Raise ex ->
        is_ImportError ex = true ->
        calculate_sa_score tk mol =
          Ok (sa_approximation (Descriptors_MolLogP tk mol) (MolWt tk mol)
                (NumRotatableBonds tk mol))).
Proof.
  intros Himport. unfold calculate_sa_score, try_except.
  rewrite Himport. cbn [mbind outcome_bind].
  repeat split.
  - intros v ->. reflexivity.
  - intros ex -> ->. reflexivity.
  - intros ex -> ->. reflexivity.
Qed.

Lemma sa_score_preferred_path_witness :
  calculate_sa_score Bench.with_scorer Bench.candidate = Ok 3.2
  /\ calculate_sa_score Bench.with_broken_scorer Bench.candidate
     = Raise ValueError.
Proof.
  split.
  - apply (proj1 (sa_score_preferred_path Bench.with_scorer Bench.candidate
                    (fun _ => Ok 3.2) eq_refl)).
    reflexivity.
  - apply (proj1 (proj2 (sa_score_preferred_path Bench.with_broken_scorer
                           Bench.candidate (fun _ => Raise ValueError)
                           eq_refl))); reflexivity.
Defined.

(** ** More on the reward of numeric records *)

Lemma numeric_score_strict (props : gmap string pyval) :
  0 < weighted_sum (effective_weights props) (numeric_scores props) < 1.
Proof.
  pose proof (logistic_bounds (number_at props "pIC50_KEAP1" 0.0) 2.0 7.5).
  pose proof
    (logistic_bounds (number_at props "Selectivity_Score" 0.0) 1.5 2.5).
  pose proof (logistic_bounds (number_at props "QED" 0.0) 10 0.6).
  pose proof (logistic_bounds (number_at props "CNS_MPO" 0.0) 15 0.5).
  pose proof (logistic_bounds (number_at props "BBB_Score" 0.0) 10 0.7).
  pose proof (logistic_bounds (- number_at props "SA_Score" 10.0) 1.0 (-3.5)).
  unfold effective_weights.
  destruct (props !! "pIC50_KEAP1");
    rewrite ?redistribute_initial;
    unfold weighted_sum, numeric_scores, initial_weights,
      redistributed_weights; simpl; lra.
Qed.

Lemma reward_of_numeric_record (props : gmap string pyval) :
  py_not (Some props) = false ->
  numeric_record props = true ->
  calculate_multi_objective_reward (Some props)
  = Ok (weighted_sum (effective_weights props) (numeric_scores props)).
Proof.
  intros Hne Hnum. pose proof (numeric_score_strict props) as Hin.
  rewrite (reward_of_scores props (numeric_scores props) Hne
             (objective_scores_numeric props Hnum)).
  rewrite total_weight_effective, Rdiv_1_r, clip_id by lra.
  reflexivity.
Qed.



(** ** More on the property evaluator *)

Section EvaluatorExtras.
Context {Mol : Type} (tk : Toolkit Mol).


Lemma evaluator_record_cases (smiles : string)
    (keap1_m egfr_m ikkb_m : option Predictor) (record : gmap string pyval) :
  calculate_advanced_properties tk smiles keap1_m egfr_m ikkb_m
  = Ok (Some record) ->
  exists mol sa,
    (record = descriptor_record tk smiles mol sa
     /\ (keap1_m = None \/ egfr_m = None \/ ikkb_m = None))
    \/ exists k e i features pk pe pi,
         keap1_m = Some k /\ egfr_m = Some e /\ ikkb_m = Some i
         /\ get_features tk mol = Ok features
         /\ invoke k features = Ok pk
         /\ invoke e features = Ok pe
         /\ invoke i features = Ok pi
         /\ record =
              <[ "Selectivity_Score" := PyNum (pk - Rmax pe pi) ]>
              (<[ "pIC50_IKKb" := PyNum pi ]>
              (<[ "pIC50_EGFR" := PyNum pe ]>
              (<[ "pIC50_KEAP1" := PyNum pk ]>
                 (descriptor_record tk smiles mol sa)))).
Proof.
  intros H.
  pose proof (evaluator_inv tk _ _ _ _ _ H) as (mol & sa & Hacc & Hsa & Hrec).
  exists mol, sa.
  destruct Hrec as [-> | (k & e & i & -> & -> & -> & Hblock)].
  - destruct keap1_m as [k | ], egfr_m as [e | ], ikkb_m as [i | ]; auto.
    exfalso. unfold calculate_advanced_properties in H.
    rewrite Hacc in H. cbn [mbind outcome_bind] in H. rewrite Hsa in H.
    cbn [mbind outcome_bind] in H. unfold try_except in H.
    destruct (predictor_block tk mol _ k e i) as [r | ex] eqn:Hblock;
      cbn in H.
    + injection H as Hr.
      apply predictor_block_inv in Hblock
        as (features & pk & pe & pi & _ & _ & _ & _ & ->).
      apply (f_equal (fun m : gmap string pyval => m !! "pIC50_KEAP1")) in Hr.
      vm_compute in Hr. discriminate.
    + destruct (is_Exception ex); discriminate.
  - right.
    apply predictor_block_inv in Hblock
      as (features & pk & pe & pi & Hf & Hk & He & Hi & ->).
    exists k, e, i, features, pk, pe, pi. auto 12.
Qed.

End EvaluatorExtras.

Section EvaluatorRecords.
Context {Mol : Type} (tk : Toolkit Mol).

Ltac by_cases H :=
  apply evaluator_record_cases in H
    as (mol & sa
        & [[-> Hmissing]
          | (k & e & i & features & pk & pe & pi
             & -> & -> & -> & Hf & Hk & He & Hi & ->)]).

(** X6.  Every record the evaluator returns carries the encoding it was
    given under SMILES and a number under each of QED, CNS_MPO, SA_Score,
    RingCount, MolWt and BBB_Score, whether or not the predictor fields
    were added. *)
Theorem evaluator_record_schema (smiles : string)
    (keap1_m egfr_m ikkb_m : option Predictor) (record : gmap string pyval) :
  calculate_advanced_properties tk smiles keap1_m egfr_m ikkb_m
  = Ok (Some record) ->
  record !! "SMILES" = Some (PyStr smiles)
  /\ Forall (fun key => is_Some (number_of record key))
       [ "QED"; "CNS_MPO"; "SA_Score"; "RingCount"; "MolWt"; "BBB_Score" ].
Proof.
  intros H. by_cases H.
  - split; [vm_compute; reflexivity | ].
    repeat apply Forall_cons_2; try apply Forall_nil_2;
      vm_compute; eexists; reflexivity.
  - split; [vm_compute; reflexivity | ].
    repeat apply Forall_cons_2; try apply Forall_nil_2;
      vm_compute; eexists; reflexivity.
Qed.

Lemma evaluator_record_numeric (smiles : string)
    (keap1_m egfr_m ikkb_m : option Predictor) (record : gmap string pyval) :
  calculate_advanced_properties tk smiles keap1_m egfr_m ikkb_m
  = Ok (Some record) ->
  py_not (Some record) = false /\ numeric_record record = true.
Proof.
  intros H. split.
  - apply evaluator_bbb in H as (mol0 & mol & _ & _ & _ & Hbbb).
    exact (py_not_nonempty record _ _ Hbbb).
  - by_cases H; vm_compute; reflexivity.
Qed.

Lemma evaluator_record_smiles (smiles : string)
    (keap1_m egfr_m ikkb_m : option Predictor) (record : gmap string pyval) :
  calculate_advanced_properties tk smiles keap1_m egfr_m ikkb_m
  = Ok (Some record) ->
  record !! "SMILES" = Some (PyStr smiles).
Proof.
  intros H. by_cases H; vm_compute; reflexivity.
Qed.

(** X7.  The predictor fields follow the predictors: a returned record
    holds a number under each of the four predictor keys when all three
    predictors were supplied, and none of the four keys otherwise. *)
Theorem predictor_keys_follow_predictors (smiles : string)
    (keap1_m egfr_m ikkb_m : option Predictor) (record : gmap string pyval) :
  calculate_advanced_properties tk smiles keap1_m egfr_m ikkb_m
  = Ok (Some record) ->
  if all_supplied keap1_m egfr_m ikkb_m
  then Forall (fun key => is_Some (number_of record key)) predictor_keys
  else Forall (fun key => record !! key = None) predictor_keys.
Proof.
  intros H. by_cases H.
  - assert (Hnot : all_supplied keap1_m egfr_m ikkb_m = false).
    { destruct keap1_m, egfr_m, ikkb_m; try reflexivity.
      destruct Hmissing as [Hm | [Hm | Hm]]; discriminate Hm. }
    rewrite Hnot. apply Forall_forall. intros key Hin.
    apply descriptor_record_no_predictor_key, Hin.
  - cbn [all_supplied]. unfold predictor_keys.
    repeat apply Forall_cons_2; try apply Forall_nil_2;
      vm_compute; eexists; reflexivity.
Qed.

(** X8.  The reward of a record the evaluator returns is always defined
    and strictly between 0 and 1.  It is the weighted sum of the logistic
    scores under the six initial weights when all three predictors were
    supplied, and under the redistributed weights (0.425 drug-likeness,
    0.1 CNS, 0.1 BBB, 0.375 synthesis-ease) otherwise. *)
Theorem evaluator_record_reward (smiles : string)
    (keap1_m egfr_m ikkb_m : option Predictor) (record : gmap string pyval) :
  calculate_advanced_properties tk smiles keap1_m egfr_m ikkb_m
  = Ok (Some record) ->
  let w := if all_supplied keap1_m egfr_m ikkb_m
           then initial_weights
           else weights.mk 0 0 0.425 0.1 0.1 0.375 in
  calculate_multi_objective_reward (Some record)
  = Ok (weighted_sum w (numeric_scores record))
  /\ 0 < weighted_sum w (numeric_scores record) < 1.
Proof.
  intros H w.
  destruct (evaluator_record_numeric _ _ _ _ _ H) as [Hne Hnum].
  assert (Hw : weighted_sum (effective_weights record) (numeric_scores record)
               = weighted_sum w (numeric_scores record)).
  { subst w. generalize (numeric_scores record) as s. intros s.
    unfold effective_weights. by_cases H.
    - assert (Hnot : all_supplied keap1_m egfr_m ikkb_m = false).
      { destruct keap1_m, egfr_m, ikkb_m; try reflexivity.
        destruct Hmissing as [Hm | [Hm | Hm]]; discriminate Hm. }
      rewrite Hnot.
      rewrite (descriptor_record_no_predictor_key tk smiles mol sa
                 "pIC50_KEAP1") by (unfold predictor_keys; constructor).
      rewrite redistribute_initial.
      destruct s. unfold weighted_sum, redistributed_weights.
      cbn [weights.r_pic50 weights.r_sel weights.r_qed weights.r_cns
           weights.r_bbb weights.r_sa scores.r_pic50 scores.r_sel
           scores.r_qed scores.r_cns scores.r_bbb scores.r_sa].
      lra.
    - cbn [all_supplied].
      rewrite lookup_insert_ne, lookup_insert_ne, lookup_insert_ne,
        lookup_insert_eq by discriminate.
      reflexivity. }
  rewrite <- Hw. split.
  - apply reward_of_numeric_record; assumption.
  - apply numeric_score_strict.
Qed.


(** X10.  An incomplete set of predictors is ignored: with any of the
    three missing, the evaluator does what it does with none, and invokes
    no predictor. *)
Theorem partial_predictors_ignored (smiles : string)
    (keap1_m egfr_m ikkb_m : option Predictor) :
  all_supplied keap1_m egfr_m ikkb_m = false ->
  calculate_advanced_properties tk smiles keap1_m egfr_m ikkb_m
  = calculate_advanced_properties tk smiles None None None.
Proof.
  intros Hnot. unfold calculate_advanced_properties.
  destruct keap1_m, egfr_m, ikkb_m; try discriminate; reflexivity.
Qed.

End EvaluatorRecords.


Lemma evaluator_record_schema_witness :
  Sample.ethanol_record !! "SMILES" = Some (PyStr "CCO")
  /\ Forall (fun key => is_Some (number_of Sample.ethanol_record key))
       [ "QED"; "CNS_MPO"; "SA_Score"; "RingCount"; "MolWt"; "BBB_Score" ].
Proof.
  apply (evaluator_record_schema Sample.toolkit "CCO" None None None).
  reflexivity.
Defined.

Lemma sample_ethanol_with_potency :
  calculate_advanced_properties Sample.toolkit "CCO"
    (Some (Sample.constant_predictor 7))
    (Some (Sample.constant_predictor 5))
    (Some (Sample.constant_predictor 6))
  = Ok (Some Bench.ethanol_with_potency).
Proof. reflexivity. Qed.

Lemma predictor_keys_follow_predictors_witness :
  Forall (fun key => is_Some (number_of Bench.ethanol_with_potency key))
    predictor_keys
  /\ Forall (fun key => Sample.ethanol_record !! key = None) predictor_keys.
Proof.
  split.
  - apply (predictor_keys_follow_predictors Sample.toolkit "CCO"
             (Some (Sample.constant_predictor 7))
             (Some (Sample.constant_predictor 5))
             (Some (Sample.constant_predictor 6))).
    reflexivity.
  - apply (predictor_keys_follow_predictors Sample.toolkit "CCO"
             None None None).
    reflexivity.
Defined.

Lemma evaluator_record_reward_witness :
  calculate_multi_objective_reward (Some Sample.ethanol_record)
  = Ok (weighted_sum (weights.mk 0 0 0.425 0.1 0.1 0.375)
          (numeric_scores Sample.ethanol_record))
  /\ 0 < weighted_sum (weights.mk 0 0 0.425 0.1 0.1 0.375)
           (numeric_scores Sample.ethanol_record) < 1.
Proof.
  apply (evaluator_record_reward Sample.toolkit "CCO" None None None).
  reflexivity.
Defined.


Lemma partial_predictors_ignored_witness :
  calculate_advanced_properties Sample.toolkit "CCO"
    (Some (Sample.constant_predictor 7)) None
    (Some Sample.failing_predictor)
  = calculate_advanced_properties Sample.toolkit "CCO" None None None.
Proof.
  apply (partial_predictors_ignored Sample.toolkit "CCO").
  reflexivity.
Defined.

(** ** How the reward depends on the other fields *)

(** Two numeric records that differ under one key other than the potency
    key: both rewards are the weighted sums, over the same weights. *)
Lemma rewards_of_neighbours (r1 r2 : gmap string pyval) (key0 : string)
    (x1 x2 : R) :
  key0 <> "pIC50_KEAP1" ->
  r1 !! key0 = Some (PyNum x1) ->
  r2 !! key0 = Some (PyNum x2) ->
  (forall key : string, key <> key0 -> r1 !! key = r2 !! key) ->
  numeric_record r1 = true ->
  calculate_multi_objective_reward (Some r1)
  = Ok (weighted_sum (effective_weights r1) (numeric_scores r1))
  /\ calculate_multi_objective_reward (Some r2)
     = Ok (weighted_sum (effective_weights r1) (numeric_scores r2)).
Proof.
  intros Hkey H1 H2 Hagree Hnum1.
  pose proof (numeric_record_agree r1 r2 _ x2 H2 Hagree Hnum1) as Hnum2.
  split.
  - apply reward_of_numeric_record; [ | exact Hnum1].
    exact (py_not_nonempty r1 _ _ H1).
  - replace (effective_weights r1) with (effective_weights r2).
    + apply reward_of_numeric_record; [ | exact Hnum2].
      exact (py_not_nonempty r2 _ _ H2).
    + unfold effective_weights. rewrite <- (Hagree "pIC50_KEAP1"); auto.
Qed.

Lemma effective_weights_nonneg (props : gmap string pyval) :
  0 <= weights.r_pic50 (effective_weights props)
  /\ 0 <= weights.r_sel (effective_weights props)
  /\ 0 <= weights.r_qed (effective_weights props)
  /\ 0 <= weights.r_cns (effective_weights props)
  /\ 0 <= weights.r_bbb (effective_weights props)
  /\ 0 <= weights.r_sa (effective_weights props).
Proof.
  unfold effective_weights.
  destruct (props !! "pIC50_KEAP1"); rewrite ?redistribute_initial;
    simpl; lra.
Qed.

Ltac compare_scores H1 H2 Hagree :=
  unfold weighted_sum, numeric_scores, number_at;
  cbn [scores.r_pic50 scores.r_sel scores.r_qed scores.r_cns scores.r_bbb
       scores.r_sa];
  rewrite ?H1, ?H2;
  rewrite <- ?Hagree by discriminate.

(** X11.  For two numeric records that agree on all fields except one of
    selectivity, QED, CNS_MPO and BBB_Score, the record with the larger
    value there has the larger or equal reward. *)
Theorem reward_monotone_in_desirability (key0 : string)
    (r1 r2 : gmap string pyval) (x1 x2 : R) :
  key0 ∈ [ "Selectivity_Score"; "QED"; "CNS_MPO"; "BBB_Score" ] ->
  r1 !! key0 = Some (PyNum x1) ->
  r2 !! key0 = Some (PyNum x2) ->
  (forall key : string, key <> key0 -> r1 !! key = r2 !! key) ->
  numeric_record r1 = true ->
  x1 <= x2 ->
  exists v1 v2,
    calculate_multi_objective_reward (Some r1) = Ok v1
    /\ calculate_multi_objective_reward (Some r2) = Ok v2
    /\ v1 <= v2.
Proof.
  intros Hin H1 H2 Hagree Hnum Hle.
  assert (Hkey : key0 <> "pIC50_KEAP1").
  { repeat (apply elem_of_cons in Hin; destruct Hin as [-> | Hin]);
      try discriminate.
    apply elem_of_nil in Hin. contradiction. }
  destruct (rewards_of_neighbours r1 r2 key0 x1 x2 Hkey H1 H2 Hagree Hnum)
    as [-> ->].
  do 2 eexists. split; [reflexivity | split; [reflexivity | ]].
  destruct (effective_weights_nonneg r1) as (? & ? & ? & ? & ? & ?).
  repeat (apply elem_of_cons in Hin; destruct Hin as [-> | Hin]);
    [ | | | | apply elem_of_nil in Hin; contradiction ];
    compare_scores H1 H2 Hagree.
  - pose proof (logistic_monotone x1 x2 1.5 2.5 ltac:(lra) Hle). nra.
  - pose proof (logistic_monotone x1 x2 10 0.6 ltac:(lra) Hle). nra.
  - pose proof (logistic_monotone x1 x2 15 0.5 ltac:(lra) Hle). nra.
  - pose proof (logistic_monotone x1 x2 10 0.7 ltac:(lra) Hle). nra.
Qed.

Lemma reward_monotone_in_desirability_witness :
  exists v1 v2,
    calculate_multi_objective_reward
      (Some (<[ "QED" := PyNum 0.3 ]> Sample.plain_record)) = Ok v1
    /\ calculate_multi_objective_reward
         (Some (<[ "QED" := PyNum 0.9 ]> Sample.plain_record)) = Ok v2
    /\ v1 <= v2.
Proof.
  apply (reward_monotone_in_desirability "QED"
           (<[ "QED" := PyNum 0.3 ]> Sample.plain_record)
           (<[ "QED" := PyNum 0.9 ]> Sample.plain_record) 0.3 0.9).
  - repeat constructor.
  - apply lookup_insert_eq.
  - apply lookup_insert_eq.
  - intros key Hne.
    etrans; [apply lookup_insert_ne; congruence | ].
    symmetry. apply lookup_insert_ne. congruence.
  - vm_compute. reflexivity.
  - lra.
Defined.

(** X12.  For two numeric records that agree on all fields except the
    synthetic-accessibility score, the record with the larger score has
    the smaller or equal reward. *)
Theorem reward_antitone_in_sa_score (r1 r2 : gmap string pyval) (x1 x2 : R) :
  r1 !! "SA_Score" = Some (PyNum x1) ->
  r2 !! "SA_Score" = Some (PyNum x2) ->
  (forall key : string, key <> "SA_Score" -> r1 !! key = r2 !! key) ->
  numeric_record r1 = true ->
  x1 <= x2 ->
  exists v1 v2,
    calculate_multi_objective_reward (Some r1) = Ok v1
    /\ calculate_multi_objective_reward (Some r2) = Ok v2
    /\ v2 <= v1.
Proof.
  intros H1 H2 Hagree Hnum Hle.
  destruct (rewards_of_neighbours r1 r2 "SA_Score" x1 x2 ltac:(discriminate)
              H1 H2 Hagree Hnum) as [-> ->].
  do 2 eexists. split; [reflexivity | split; [reflexivity | ]].
  destruct (effective_weights_nonneg r1) as (? & ? & ? & ? & ? & ?).
  compare_scores H1 H2 Hagree.
  pose proof (logistic_monotone (- x2) (- x1) 1.0 (-3.5) ltac:(lra)
                ltac:(lra)).
  nra.
Qed.

Lemma reward_antitone_in_sa_score_witness :
  exists v1 v2,
    calculate_multi_objective_reward
      (Some (<[ "SA_Score" := PyNum 2 ]> Sample.plain_record)) = Ok v1
    /\ calculate_multi_objective_reward
         (Some (<[ "SA_Score" := PyNum 9 ]> Sample.plain_record)) = Ok v2
    /\ v2 <= v1.
Proof.
  apply (reward_antitone_in_sa_score
           (<[ "SA_Score" := PyNum 2 ]> Sample.plain_record)
           (<[ "SA_Score" := PyNum 9 ]> Sample.plain_record) 2 9).
  - apply lookup_insert_eq.
  - apply lookup_insert_eq.
  - intros key Hne.
    etrans; [apply lookup_insert_ne; congruence | ].
    symmetry. apply lookup_insert_ne. congruence.
  - vm_compute. reflexivity.
  - lra.
Defined.

Lemma sigmoid_squashable (v : pyval) (k x0 : R) :
  if squashable v
  then exists s, _sigmoid v k x0 = Ok s /\ 0 <= s <= 1
  else _sigmoid v k x0 = Raise TypeError.
Proof.
  destruct v as [ | s | x]; cbn.
  - exists 0.0. split; [reflexivity | lra].
  - reflexivity.
  - exists (logistic x k x0). split; [reflexivity | ].
    pose proof (logistic_bounds x k x0). lra.
Qed.

Lemma objective_scores_readable (props : gmap string pyval) :
  if readable props
  then exists s, objective_scores props = Ok s
  else objective_scores props = Raise TypeError.
Proof.
  unfold readable, objective_scores.
  repeat match goal with
         | |- context [squashable (get props ?key ?d)] =>
             match goal with
             | |- context [_sigmoid (get props key d) ?k ?x0] =>
                 pose proof (sigmoid_squashable (get props key d) k x0) as Hs;
                 destruct (squashable (get props key d));
                 [ destruct Hs as (? & -> & _); cbn [mbind outcome_bind andb]
                 | rewrite Hs; reflexivity ]
             end
         end.
  destruct (get props "SA_Score" (PyNum 10.0)) as [ | ? | ?]; cbn; eauto.
Qed.

(** X13.  On a non-empty record the reward either returns a value in
    [0, 1] or raises [TypeError], and which one is decided by the types
    it reads: it returns when none of the first five fields is a string
    ([None] there is scored 0) and SA_Score is a number or absent, and it
    raises otherwise, in particular when SA_Score is [None]. *)
Theorem reward_returns_or_type_error (props : gmap string pyval) :
  py_not (Some props) = false ->
  if readable props
  then exists v, calculate_multi_objective_reward (Some props) = Ok v
                 /\ 0 <= v <= 1
  else calculate_multi_objective_reward (Some props) = Raise TypeError.
Proof.
  intros Hne. pose proof (objective_scores_readable props) as Hs.
  destruct (readable props).
  - destruct Hs as [s Hs]. eexists. split.
    + apply (reward_of_scores props s Hne Hs).
    + apply clip_bounds.
  - unfold calculate_multi_objective_reward. rewrite Hne.
    change (default ∅ (Some props)) with props. rewrite Hs. reflexivity.
Qed.

Lemma reward_returns_or_type_error_witness :
  calculate_multi_objective_reward (Some Bench.record_without_sa)
  = Raise TypeError
  /\ exists v,
       calculate_multi_objective_reward (Some Bench.record_without_qed) = Ok v
       /\ 0 <= v <= 1.
Proof.
  split.
  - apply (reward_returns_or_type_error Bench.record_without_sa).
    vm_compute. reflexivity.
  - apply (reward_returns_or_type_error Bench.record_without_qed).
    vm_compute. reflexivity.
Defined.

Lemma weighted_sum_without_selectivity (s : scores.t) (x : R) :
  weighted_sum redistributed_weights s
  = weighted_sum redistributed_weights
      (scores.mk (scores.r_pic50 s) x (scores.r_qed s) (scores.r_cns s)
         (scores.r_bbb s) (scores.r_sa s)).
Proof.
  destruct s. unfold weighted_sum, redistributed_weights. simpl. lra.
Qed.

Lemma get_insert_eq (m : gmap string pyval) (key : string) (v d : pyval) :
  get (<[ key := v ]> m) key d = v.
Proof. unfold get. rewrite lookup_insert_eq. reflexivity. Qed.

Lemma get_insert_ne (m : gmap string pyval) (key key' : string) (v d : pyval) :
  key <> key' -> get (<[ key := v ]> m) key' d = get m key' d.
Proof.
  intros Hne. unfold get. rewrite lookup_insert_ne by exact Hne.
  reflexivity.
Qed.

(** The reward of a non-empty record, whether its scores evaluate or not. *)
Lemma reward_of_nonempty (props : gmap string pyval) :
  py_not (Some props) = false ->
  calculate_multi_objective_reward (Some props)
  = (s ← objective_scores props;
     Ok (clip (weighted_sum (effective_weights props) s
               / total_weight (effective_weights props)) 0 1)).
Proof.
  intros Hne. destruct (objective_scores props) as [s | ex] eqn:Hs.
  - apply (reward_of_scores props s Hne Hs).
  - unfold calculate_multi_objective_reward. rewrite Hne.
    change (default ∅ (Some props)) with props. rewrite Hs. reflexivity.
Qed.

(** X14.  Without the potency key the selectivity field has no say:
    whatever number stands under Selectivity_Score, the reward is the
    same (the same value, or the same exception). *)
Theorem reward_ignores_selectivity_without_potency
    (props : gmap string pyval) (v v' : R) :
  props !! "pIC50_KEAP1" = None ->
  calculate_multi_objective_reward
    (Some (<[ "Selectivity_Score" := PyNum v ]> props))
  = calculate_multi_objective_reward
      (Some (<[ "Selectivity_Score" := PyNum v' ]> props)).
Proof.
  intros Hkey.
  assert (Hone : forall x : R,
    calculate_multi_objective_reward
      (Some (<[ "Selectivity_Score" := PyNum x ]> props))
    = calculate_multi_objective_reward
        (Some (<[ "Selectivity_Score" := PyNum 0 ]> props))).
  { intros x.
    rewrite !reward_of_nonempty
      by exact (py_not_nonempty _ "Selectivity_Score" _
                  (lookup_insert_eq _ _ _)).
    unfold effective_weights.
    rewrite !lookup_insert_ne, Hkey, redistribute_initial by discriminate.
    unfold objective_scores.
    rewrite !get_insert_eq.
    rewrite !get_insert_ne by discriminate.
    repeat match goal with
           | |- context [_sigmoid (get props ?k ?d) ?a ?b] =>
               destruct (_sigmoid (get props k d) a b);
               cbn [mbind outcome_bind]; [ | reflexivity]
           end.
    cbn [_sigmoid mbind outcome_bind].
    repeat match goal with
           | |- context [_sigmoid (get props ?k ?d) ?a ?b] =>
               destruct (_sigmoid (get props k d) a b);
               cbn [mbind outcome_bind]; [ | reflexivity]
           end.
    destruct (py_neg _) as [sa | ex]; cbn [mbind outcome_bind];
      [ | reflexivity].
    destruct (_sigmoid sa 1.0 (-3.5));
      cbn [mbind outcome_bind mret outcome_ret]; [ | reflexivity].
    match goal with
    | |- Ok (clip (weighted_sum _ ?s1 / _) 0 1)
         = Ok (clip (weighted_sum _ ?s2 / _) 0 1) =>
        rewrite (weighted_sum_without_selectivity s1 0),
          (weighted_sum_without_selectivity s2 0)
    end.
    reflexivity. }
  rewrite (Hone v), (Hone v'). reflexivity.
Qed.

Lemma reward_ignores_selectivity_without_potency_witness :
  calculate_multi_objective_reward
    (Some (<[ "Selectivity_Score" := PyNum 9 ]> Sample.plain_record))
  = calculate_multi_objective_reward
      (Some (<[ "Selectivity_Score" := PyNum (-4) ]> Sample.plain_record)).
Proof.
  apply (reward_ignores_selectivity_without_potency Sample.plain_record).
  vm_compute. reflexivity.
Defined.

(** ** The curation filter *)

Lemma at_most_true (x bound : R) : at_most x bound = true <-> x <= bound.
Proof.
  unfold at_most. destruct (Rle_dec x bound); split; auto; discriminate.
Qed.

Lemma exceeds_true (x bound : R) : exceeds x bound = true <-> x > bound.
Proof.
  unfold exceeds. destruct (Rgt_dec x bound); split; auto; discriminate.
Qed.

Section CurationProperties.
Context {Mol : Type} (tk : Toolkit Mol).

Lemma check_lipinski_true (mol : Mol) :
  check_lipinski tk mol = true
  <-> MolWt tk mol <= 500 /\ Descriptors_MolLogP tk mol <= 5
      /\ (NumHDonors tk mol <= 5)%Z /\ (NumHAcceptors tk mol <= 10)%Z.
Proof.
  unfold check_lipinski. cbv zeta.
  rewrite !andb_true_iff, !at_most_true, !Z.leb_le. tauto.
Qed.

Lemma check_veber_true (mol : Mol) :
  check_veber tk mol = true
  <-> TPSA tk mol <= 140 /\ (NumRotatableBonds tk mol <= 10)%Z.
Proof.
  unfold check_veber. cbv zeta.
  rewrite andb_true_iff, at_most_true, Z.leb_le. tauto.
Qed.

Ltac run_filter :=
  unfold filter_molecules, try_except, and_then, any_exception, has_pains;
  cbn [mbind outcome_bind fmap outcome_fmap].

(** X15.  The filter never raises: whatever the parser, the catalog or
    the scorer does, it returns [True] or [False]. *)
Theorem filter_molecules_returns (smiles : string) :
  exists b, filter_molecules tk smiles = Ok b.
Proof.
  run_filter.
  destruct (MolFromSmiles tk smiles) as [[mol | ] | ex]; cbn; eauto.
  destruct (exceeds (qed tk mol) 0.6); cbn; eauto.
  destruct (exceeds (calculate_cns_mpo tk mol) 0.5); cbn; eauto.
  destruct (check_lipinski tk mol); cbn; eauto.
  destruct (check_veber tk mol); cbn; eauto.
  destruct (HasMatch tk mol) as [[ | ] | ex]; cbn; eauto.
  destruct (calculate_sa_score tk mol) as [sa | ex]; cbn; eauto.
Qed.

(** X16.  The filter returns [True] exactly for an encoding that parses
    to a molecule with QED above 0.6, CNS score above 0.5, weight at most
    500, logP at most 5, at most 5 donors and 10 acceptors, polar surface
    at most 140, at most 10 rotatable bonds, no catalog match, and a
    synthetic-accessibility score that is returned and at most 4.5. *)
Theorem filter_molecules_true_iff (smiles : string) :
  filter_molecules tk smiles = Ok true
  <->
  exists mol sa,
    MolFromSmiles tk smiles = Ok (Some mol)
    /\ qed tk mol > 0.6
    /\ calculate_cns_mpo tk mol > 0.5
    /\ MolWt tk mol <= 500
    /\ Descriptors_MolLogP tk mol <= 5
    /\ (NumHDonors tk mol <= 5)%Z
    /\ (NumHAcceptors tk mol <= 10)%Z
    /\ TPSA tk mol <= 140
    /\ (NumRotatableBonds tk mol <= 10)%Z
    /\ HasMatch tk mol = Ok false
    /\ calculate_sa_score tk mol = Ok sa
    /\ sa <= 4.5.
Proof.
  run_filter. split.
  - destruct (MolFromSmiles tk smiles) as [[mol | ] | ex]; cbn;
      try discriminate.
    destruct (exceeds (qed tk mol) 0.6) eqn:Hq; cbn; try discriminate.
    destruct (exceeds (calculate_cns_mpo tk mol) 0.5) eqn:Hc; cbn;
      try discriminate.
    destruct (check_lipinski tk mol) eqn:Hl; cbn; try discriminate.
    destruct (check_veber tk mol) eqn:Hv; cbn; try discriminate.
    destruct (HasMatch tk mol) as [[ | ] | ex] eqn:Hm; cbn; try discriminate.
    destruct (calculate_sa_score tk mol) as [sa | ex] eqn:Hs; cbn;
      try discriminate.
    intros [= Hsa].
    apply exceeds_true in Hq, Hc. apply at_most_true in Hsa.
    apply check_lipinski_true in Hl as (? & ? & ? & ?).
    apply check_veber_true in Hv as (? & ?).
    exists mol, sa. auto 15.
  - intros (mol & sa & -> & Hq & Hc & Hmw & Hlogp & Hd & Ha & Ht & Hr
            & Hm & Hs & Hsa).
    cbn.
    rewrite (proj2 (exceeds_true _ _) Hq). cbn.
    rewrite (proj2 (exceeds_true _ _) Hc). cbn.
    rewrite (proj2 (check_lipinski_true mol)) by auto. cbn.
    rewrite (proj2 (check_veber_true mol)) by auto. cbn.
    rewrite Hm. cbn. rewrite Hs. cbn.
    rewrite (proj2 (at_most_true _ _) Hsa). reflexivity.
Qed.

End CurationProperties.

Lemma filter_molecules_true_iff_witness :
  filter_molecules Bench.without_scorer "CC(=O)Nc1ccc(O)cc1" = Ok true.
Proof.
  apply (proj2 (filter_molecules_true_iff Bench.without_scorer
                  "CC(=O)Nc1ccc(O)cc1")).
  exists Bench.candidate, (sa_approximation 2.5 400 4).
  assert (Hexp : forall x c : R, x = 0 -> exp (- (x ^ 2) / c) = 1).
  { intros x c ->. replace (- (0 ^ 2) / c) with 0.
    - apply exp_0.
    - unfold Rdiv. simpl. ring. }
  assert (Hcns : calculate_cns_mpo Bench.without_scorer Bench.candidate = 1).
  { unfold calculate_cns_mpo.
    cbv [Descriptors_MolLogP TPSA MolWt NumHDonors Bench.without_scorer
         Bench.toolkit_with Bench.candidate Sample.logp Sample.tpsa
         Sample.mol_wt Sample.h_donors].
    rewrite !Hexp by lra.
    destruct (Rgt_dec 2 2.5); lra. }
  assert (Hsa : sa_approximation 2.5 400 4 <= 4.5).
  { unfold sa_approximation.
    replace (2.5 - 2.5) with 0 by lra. rewrite Rabs_R0.
    split_min_max; lra. }
  repeat split; try reflexivity; try exact Hsa;
    try (rewrite Hcns; lra); cbn; try lra; lia.
Defined.

(** ** The batch driver *)

Section BatchProperties.
Context {Mol : Type} (tk : Toolkit Mol).
Context (keap1_m egfr_m ikkb_m : option Predictor).

Lemma collect_properties_returns (smiles_list : list string)
    (results : list (gmap string pyval)) :
  Forall (evaluates tk keap1_m egfr_m ikkb_m) smiles_list ->
  collect_properties tk keap1_m egfr_m ikkb_m smiles_list results
  = Ok (results ++ omap (record_of tk keap1_m egfr_m ikkb_m) smiles_list).
Proof.
  intros Hall. revert results.
  induction Hall as [ | smi rest [props Hsmi] _ IH]; intros results.
  - cbn. rewrite app_nil_r. reflexivity.
  - cbn [collect_properties omap list_omap]. unfold record_of at 1.
    rewrite Hsmi. cbn [mbind outcome_bind].
    destruct props as [record | ].
    + destruct (evaluator_record_numeric tk _ _ _ _ _ Hsmi) as [-> _].
      rewrite IH, <- app_assoc. reflexivity.
    + apply IH.
Qed.

Lemma collect_properties_raises (before after : list string) (smi : string)
    (ex : exn) (results : list (gmap string pyval)) :
  Forall (evaluates tk keap1_m egfr_m ikkb_m) before ->
  calculate_advanced_properties tk smi keap1_m egfr_m ikkb_m = Raise ex ->
  collect_properties tk keap1_m egfr_m ikkb_m (before ++ smi :: after) results
  = Raise ex.
Proof.
  intros Hall Hsmi. revert results.
  induction Hall as [ | s rest [props Hs] _ IH]; intros results.
  - cbn. rewrite Hsmi. reflexivity.
  - cbn [app collect_properties]. rewrite Hs.
    cbn [mbind outcome_bind]. apply IH.
Qed.

Lemma collect_properties_inv (smiles_list : list string)
    (results results' : list (gmap string pyval)) :
  collect_properties tk keap1_m egfr_m ikkb_m smiles_list results
  = Ok results' ->
  Forall (evaluates tk keap1_m egfr_m ikkb_m) smiles_list.
Proof.
  revert results. induction smiles_list as [ | smi rest IH]; intros results H.
  - constructor.
  - cbn [collect_properties] in H.
    destruct (calculate_advanced_properties tk smi keap1_m egfr_m ikkb_m)
      as [props | ex] eqn:Hsmi; cbn [mbind outcome_bind] in H;
      [ | discriminate].
    constructor; [exists props; exact Hsmi | ].
    exact (IH _ H).
Qed.

(** X17.  When every encoding of the list evaluates without raising, the
    batch returns, in the order of the list, the records of exactly the
    encodings for which the evaluator returned one; the others leave no
    trace. *)
Theorem batch_returns_records (smiles_list : list string) :
  Forall (evaluates tk keap1_m egfr_m ikkb_m) smiles_list ->
  calculate_advanced_properties_parallel tk smiles_list
    keap1_m egfr_m ikkb_m
  = Ok (omap (record_of tk keap1_m egfr_m ikkb_m) smiles_list).
Proof.
  intros Hall. unfold calculate_advanced_properties_parallel.
  rewrite (collect_properties_returns smiles_list [] Hall). reflexivity.
Qed.

(** X18.  The batch stops at the first encoding on which the evaluator
    raises: it raises that exception and returns none of the records
    gathered before it. *)
Theorem batch_fails_fast (before after : list string) (smi : string)
    (ex : exn) :
  Forall (evaluates tk keap1_m egfr_m ikkb_m) before ->
  calculate_advanced_properties tk smi keap1_m egfr_m ikkb_m = Raise ex ->
  calculate_advanced_properties_parallel tk (before ++ smi :: after)
    keap1_m egfr_m ikkb_m
  = Raise ex.
Proof.
  intros Hall Hsmi. unfold calculate_advanced_properties_parallel.
  apply collect_properties_raises; assumption.
Qed.

(** X19.  Batches compose: when the batches of two lists return, the
    batch of their concatenation returns the concatenation of the two
    results. *)
Theorem batch_of_concatenation (l1 l2 : list string)
    (r1 r2 : list (gmap string pyval)) :
  calculate_advanced_properties_parallel tk l1 keap1_m egfr_m ikkb_m = Ok r1 ->
  calculate_advanced_properties_parallel tk l2 keap1_m egfr_m ikkb_m = Ok r2 ->
  calculate_advanced_properties_parallel tk (l1 ++ l2) keap1_m egfr_m ikkb_m
  = Ok (r1 ++ r2).
Proof.
  unfold calculate_advanced_properties_parallel. intros H1 H2.
  pose proof (collect_properties_inv _ _ _ H1) as Hall1.
  pose proof (collect_properties_inv _ _ _ H2) as Hall2.
  rewrite (collect_properties_returns _ [] Hall1) in H1.
  rewrite (collect_properties_returns _ [] Hall2) in H2.
  injection H1 as <-. injection H2 as <-.
  rewrite (collect_properties_returns (l1 ++ l2) []
             (proj2 (Forall_app _ _ _) (conj Hall1 Hall2))).
  cbn [app]. rewrite omap_app. reflexivity.
Qed.

(** X20.  A batch that returns has one record per kept encoding: the
    kept encodings are a subsequence of the list, each record is the one
    the evaluator returns for its encoding and names it under SMILES, so
    the batch never holds more records than the list has encodings. *)
Theorem batch_keeps_order (smiles_list : list string)
    (results : list (gmap string pyval)) :
  calculate_advanced_properties_parallel tk smiles_list
    keap1_m egfr_m ikkb_m = Ok results ->
  (exists kept,
     sublist kept smiles_list
     /\ Forall2 (fun smi record =>
                   calculate_advanced_properties tk smi keap1_m egfr_m ikkb_m
                   = Ok (Some record)
                   /\ record !! "SMILES" = Some (PyStr smi)) kept results)
  /\ (length results <= length smiles_list)%nat.
Proof.
  unfold calculate_advanced_properties_parallel. intros H.
  pose proof (collect_properties_inv _ _ _ H) as Hall.
  rewrite (collect_properties_returns _ [] Hall) in H.
  injection H as <-. cbn [app]. clear Hall.
  assert (Hkept : exists kept,
    sublist kept smiles_list
    /\ Forall2 (fun smi record =>
                  calculate_advanced_properties tk smi keap1_m egfr_m ikkb_m
                  = Ok (Some record)
                  /\ record !! "SMILES" = Some (PyStr smi)) kept
         (omap (record_of tk keap1_m egfr_m ikkb_m) smiles_list)).
  { induction smiles_list as [ | smi rest (kept & Hsub & Hrec)].
    - exists []. split; constructor.
    - cbn [omap list_omap]. unfold record_of at 1.
      destruct (calculate_advanced_properties tk smi keap1_m egfr_m ikkb_m)
        as [[record | ] | ex] eqn:Hsmi.
      + exists (smi :: kept). split; [apply sublist_skip, Hsub | ].
        constructor; [ | exact Hrec].
        split; [exact Hsmi | ].
        apply (evaluator_record_smiles tk _ _ _ _ _ Hsmi).
      + exists kept. split; [apply sublist_cons, Hsub | exact Hrec].
      + exists kept. split; [apply sublist_cons, Hsub | exact Hrec]. }
  split; [exact Hkept | ].
  destruct Hkept as (kept & Hsub & Hrec).
  rewrite <- (Forall2_length _ _ _ Hrec).
  apply sublist_length, Hsub.
Qed.

End BatchProperties.

Lemma batch_returns_records_witness :
  calculate_advanced_properties_parallel Sample.toolkit
    [ "CCO"; "not_a_smiles"; "CCO" ] None None None
  = Ok (omap (record_of Sample.toolkit None None None)
          [ "CCO"; "not_a_smiles"; "CCO" ]).
Proof.
  apply (batch_returns_records Sample.toolkit None None None).
  repeat constructor; eexists; reflexivity.
Defined.

Lemma batch_fails_fast_witness :
  calculate_advanced_properties_parallel Bench.with_broken_scorer
    ([ "not_a_smiles" ] ++ "CCO" :: [ "CC(=O)Nc1ccc(O)cc1" ]) None None None
  = Raise ValueError.
Proof.
  apply (batch_fails_fast Bench.with_broken_scorer None None None).
  - repeat constructor. eexists. reflexivity.
  - reflexivity.
Defined.

Lemma batch_of_concatenation_witness :
  calculate_advanced_properties_parallel Sample.toolkit
    ([ "CCO" ] ++ [ "not_a_smiles"; "CCO" ]) None None None
  = Ok ([ Sample.ethanol_record ] ++ [ Sample.ethanol_record ]).
Proof.
  apply (batch_of_concatenation Sample.toolkit None None None);
    reflexivity.
Defined.

Lemma batch_keeps_order_witness :
  (exists kept,
     sublist kept [ "CCO"; "not_a_smiles"; "CCO" ]
     /\ Forall2 (fun smi record =>
                   calculate_advanced_properties Sample.toolkit smi
                     None None None = Ok (Some record)
                   /\ record !! "SMILES" = Some (PyStr smi)) kept
          [ Sample.ethanol_record; Sample.ethanol_record ])
  /\ (length [ Sample.ethanol_record; Sample.ethanol_record ]
      <= length [ "CCO"; "not_a_smiles"; "CCO" ])%nat.
Proof.
  apply (batch_keeps_order Sample.toolkit None None None).
  reflexivity.
Defined.
